(** * Model selection for the Titanic classifiers

    A shallow embedding of the notebooks [Random forests] and [Boosting]:
    the helper [print_results], which renders a fitted grid search, and
    the cells around it, from the imports to the cell that writes the best
    estimator to disk.  The grid search itself, the notebooks of the other
    model families and the comparison of the persisted models are not in
    the sources; they are modelled from the specification, and marked as
    such.

    Scores are numpy [float64] values.  They are modelled as IEEE 754
    binary64 values with the specification floats of the standard library
    ([spec_float] at precision 53 and maximal exponent 1024), so that
    products, quotients, comparisons, signed zeros, infinities and NaN are
    those of the code.  [print_results] is parametric in the builtin
    [round] and in the text conversion of a float.  On a [float64] the
    builtin [round] is numpy's, given by [Np.round]; the text of a float
    is given by [Py.str_float]. *)

From Stdlib Require Import ZArith Bool Ascii String Lia.
From Stdlib Require Import SpecFloat.
From stdpp Require Import gmap strings list pretty.

Local Open Scope string_scope.
Local Open Scope list_scope.

(** ** numpy.float64 *)

Module F64.

Definition prec : Z := 53.
Definition emax : Z := 1024.

Definition float64 : Type := spec_float.

(** [x * y] and [x / y] on [float64]. *)
Definition mul (x y : float64) : float64 := SFmul prec emax x y.
Definition div (x y : float64) : float64 := SFdiv prec emax x y.

(** Conversion of a Python [int] operand to [float64], as numpy does
    before a mixed operation. *)
Definition of_int (n : Z) : float64 := binary_normalize prec emax n 0 false.

Definition is_nan (x : float64) : bool :=
  match x with
  | S754_nan => true
  | _ => false
  end.

(** [x <= y] and [x < y]; both are [false] as soon as an operand is NaN. *)
Definition leb (x y : float64) : bool := SFleb x y.
Definition ltb (x y : float64) : bool := SFltb x y.

End F64.

Abbreviation float64 := F64.float64.

(** ** Hyperparameter values and configurations *)

(** The values that the grids of the notebooks range over: integers
    ([n_estimators], [max_depth]), floats ([learning_rate]) and [None]. *)
Inductive value : Type :=
  | VInt (n : Z)
  | VFloat (x : float64)
  | VNone.

(** A configuration is a Python [dict] from hyperparameter names to values.
    Its text shows the entries in insertion order, so it is kept as an
    association list. *)
Abbreviation dict := (list (string * value)).

(** The result table [cv_results_] of a fitted search, restricted to the
    three keys that [print_results] reads. *)
Record cv_results : Type := {
  mean_test_score : list float64;
  std_test_score : list float64;
  params : list dict
}.

(** The attributes of a fitted [GridSearchCV] object that [print_results]
    reads. *)
Record GridSearchCV : Type := {
  best_params_ : dict;
  cv_results_ : cv_results
}.

(** ** Standard output *)

(** The newline character. *)
Definition nl : string := String "010"%char EmptyString.

(** Standard output: the texts written so far, one entry per call of
    [print], oldest first. *)
Abbreviation stdout := (list string).

(** [print(s)] writes [s] followed by a newline. *)
Definition print (s : string) (out : stdout) : stdout := out ++ [s +:+ nl].

(** The text that a sequence of writes leaves on standard output. *)
Definition text (out : stdout) : string := foldr String.append "" out.

(** The number of newline characters of a text. *)
Fixpoint newlines (s : string) : nat :=
  match s with
  | EmptyString => 0
  | String c s' => (if Ascii.eqb c "010"%char then 1 else 0) + newlines s'
  end.

(** The number of lines that a sequence of writes puts on standard
    output. *)
Definition lines_written (out : stdout) : nat := sum_list (newlines <$> out).

(** The lines of a text, without their newline characters; [cur] is the
    beginning of the line being read. *)
Fixpoint splitlines_from (cur s : string) : list string :=
  match s with
  | EmptyString => if String.eqb cur "" then [] else [cur]
  | String c s' =>
      if Ascii.eqb c "010"%char then cur :: splitlines_from "" s'
      else splitlines_from (cur +:+ String c "") s'
  end.

Definition splitlines (s : string) : list string := splitlines_from "" s.

(** Python's [zip] of three sequences: it stops with the shortest one. *)
Fixpoint zip {A B C : Type} (xs : list A) (ys : list B) (zs : list C)
  : list (A * B * C) :=
  match xs, ys, zs with
  | x :: xs', y :: ys', z :: zs' => (x, y, z) :: zip xs' ys' zs'
  | _, _, _ => []
  end.

(** ** The text of a key *)

(** [repr] of a [str], which is how a [dict] shows its keys.  The text is
    put between single quotes, or between double quotes when it holds a
    single quote and no double quote; the quote character in use and the
    backslash are escaped, tab, newline and carriage return are written
    [\t], [\n] and [\r], and the other control characters by their code,
    [\xhh].  The characters beyond ASCII are copied, as Python copies the
    printable ones. *)
Module Repr.

Definition squote : ascii := "039"%char.
Definition dquote : ascii := "034"%char.
Definition backslash : ascii := "092"%char.

Fixpoint mem (c : ascii) (s : string) : bool :=
  match s with
  | EmptyString => false
  | String c' s' => Ascii.eqb c c' || mem c s'
  end.

Definition hex_digit (n : N) : ascii :=
  default "0"%char (String.get (N.to_nat n) "0123456789abcdef").

Definition escape (quote c : ascii) : string :=
  let n := N_of_ascii c in
  if Ascii.eqb c quote || Ascii.eqb c backslash then String backslash (String c "")
  else if (n =? 9)%N then String backslash "t"
  else if (n =? 10)%N then String backslash "n"
  else if (n =? 13)%N then String backslash "r"
  else if (n <? 32)%N || (n =? 127)%N then
    String backslash
      (String "x" (String (hex_digit (n / 16)) (String (hex_digit (n mod 16)) "")))
  else String c "".

Fixpoint escape_all (quote : ascii) (s : string) : string :=
  match s with
  | EmptyString => ""
  | String c s' => escape quote c +:+ escape_all quote s'
  end.

Definition repr_str (s : string) : string :=
  let quote := if mem squote s && negb (mem dquote s) then dquote else squote in
  String quote (escape_all quote s +:+ String quote "").

End Repr.

(** ** The results-formatting helper *)

Section PrintResults.

(** The builtin [round(x, ndigits)] on a [float64]. *)
Variable round : float64 -> Z -> float64.

(** [str] of a [float64], as ['{}'.format] inserts it. *)
Variable str_float : float64 -> string.

Definition str_value (v : value) : string :=
  match v with
  | VInt n => pretty n
  | VFloat x => str_float x
  | VNone => "None"
  end.

Definition str_item (kv : string * value) : string :=
  Repr.repr_str kv.1 +:+ ": " +:+ str_value kv.2.

Fixpoint str_items (d : dict) : string :=
  match d with
  | [] => ""
  | [kv] => str_item kv
  | kv :: d' => str_item kv +:+ ", " +:+ str_items d'
  end.

(** [str] of a [dict]: [{'max_depth': 4, 'n_estimators': 250}]. *)
Definition str_dict (d : dict) : string := "{" +:+ str_items d +:+ "}".

(** ['Best params: {}\n'.format(best)] *)
Definition best_line (best : dict) : string :=
  "Best params: " +:+ str_dict best +:+ nl.

(** ['{} (+/-{}) for {}'.format(round(mean, 3), round(std * 2, 3), params)] *)
Definition trial_line (mean std : float64) (p : dict) : string :=
  str_float (round mean 3) +:+ " (+/-"
    +:+ str_float (round (F64.mul std (F64.of_int 2)) 3)
    +:+ ") for " +:+ str_dict p.

(** The helper of both notebooks. *)
Definition print_results (results : GridSearchCV) (out : stdout) : stdout :=
  let out := print (best_line (best_params_ results)) out in
  let means := mean_test_score (cv_results_ results) in
  let stds := std_test_score (cv_results_ results) in
  foldl (fun out '(mean, std, p) => print (trial_line mean std p) out)
        out
        (zip means stds (params (cv_results_ results))).

End PrintResults.

(** ** The grid-search driver *)

(** A hyperparameter grid: each name with its ordered candidate values, in
    the order in which the notebook writes them. *)
Abbreviation param_grid := (list (string * list value)).

(** Modelled from the spec: the names of a grid in sorted order, which is
    how scikit-learn's [ParameterGrid] takes them ([sorted(p.items())]);
    the sort is by the characters of the name and keeps the order of the
    source between equal names. *)
Fixpoint insert_item (item : string * list value) (l : param_grid)
  : param_grid :=
  match l with
  | [] => [item]
  | x :: l' =>
      if String.leb item.1 x.1 then item :: l else x :: insert_item item l'
  end.

Definition sorted_items (grid : param_grid) : param_grid :=
  foldr insert_item [] grid.

(** Modelled from the spec: the cross product of the candidate values, the
    last name varying fastest. *)
Fixpoint product (grid : param_grid) : list dict :=
  match grid with
  | [] => [[]]
  | (name, candidates) :: grid' =>
      v ← candidates; d ← product grid'; [(name, v) :: d]
  end.

(** Modelled from the spec: the enumeration of a grid, which the notebooks
    leave to scikit-learn's [GridSearchCV] and which is not part of the
    sources.  The spec combines the candidate values "by full cross-product
    to enumerate all trial configurations"; the names are taken in sorted
    order, the last one varying fastest, which is the order in which the
    configurations appear in the output of the notebooks. *)
Definition ParameterGrid (grid : param_grid) : list dict :=
  product (sorted_items grid).

(** Modelled from the spec: the selection rule of the search, which is
    scikit-learn's and not part of the sources.  The winning configuration
    "is the one with the maximum mean fold-accuracy; ties are broken by
    whatever deterministic ordering the enumeration produced (first-seen
    wins)".  [argmax_from best_i best i l] scans [l], whose first element
    has index [i], and moves to a later index only for a strictly greater
    score. *)
Fixpoint argmax_from (best_i : nat) (best : float64) (i : nat)
  (l : list float64) : nat :=
  match l with
  | [] => best_i
  | x :: l' =>
      if F64.ltb best x then argmax_from i x (S i) l'
      else argmax_from best_i best (S i) l'
  end.

(** Modelled from the spec: the position of the winning configuration in a
    list of mean scores; there is none in an empty list. *)
Definition argmax (l : list float64) : option nat :=
  match l with
  | [] => None
  | x :: l' => Some (argmax_from 0 x 1 l')
  end.

Section GridSearch.

(** The cross-validated score of one configuration: mean and standard
    deviation of the accuracy over the folds.  Fitting and scoring are
    scikit-learn's. *)
Variable cv_score : dict -> float64 * float64.

(** Modelled from the spec: [GridSearchCV(model, grid, cv=5).fit(...)], "a
    pure function taking a finite sequence of configuration values and a
    scoring function, returning the arg-max configuration plus the full
    scored sequence in original order".  A grid without configurations has
    no best one: the result is [None]. *)
Definition fit (grid : param_grid) : option GridSearchCV :=
  let configs := ParameterGrid grid in
  let means := (fun d => (cv_score d).1) <$> configs in
  let stds := (fun d => (cv_score d).2) <$> configs in
  i ← argmax means;
  best ← configs !! i;
  Some {| best_params_ := best;
          cv_results_ := {| mean_test_score := means;
                            std_test_score := stds;
                            params := configs |} |}.

End GridSearch.

(** ** The library routines on floats *)

(** Exact arithmetic on the value of a float, for rounding and for the
    text of a float. *)
Module Dec.

(** The quotient [num / den] rounded to the nearest integer, ties to
    even ([0 < den]). *)
Definition div_half_even (num den : Z) : Z :=
  let q := (num / den)%Z in
  match (2 * (num mod den) ?= den)%Z with
  | Lt => q
  | Gt => (q + 1)%Z
  | Eq => if Z.even q then q else (q + 1)%Z
  end.

(** The float64 nearest to the quotient of two integers ([0 < den]). *)
Definition of_ratio (negative : bool) (num den : Z) : float64 :=
  match num, den with
  | Zpos n, Zpos d =>
      SFdiv F64.prec F64.emax (S754_finite negative n 0) (S754_finite false d 0)
  | _, _ => S754_zero negative
  end.

(** The exact value [m * 2^e] as a fraction. *)
Definition to_frac (m : positive) (e : Z) : Z * Z :=
  if (0 <=? e)%Z then (Zpos m * 2 ^ e, 1)%Z else (Zpos m, 2 ^ (- e))%Z.

(** The exact value times [10^k], as a fraction, for any sign of [k]. *)
Definition scale10 (f : Z * Z) (k : Z) : Z * Z :=
  if (0 <=? k)%Z then (f.1 * 10 ^ k, f.2)%Z else (f.1, f.2 * 10 ^ (- k))%Z.

End Dec.

(** The builtin [round] on a [numpy.float64], which is what
    [mean_test_score] and [std_test_score] hold: numpy scales by the power
    of ten, rounds to the nearest integer and scales back, all three in
    [float64] arithmetic. *)
Module Np.

(** [numpy.rint]: the nearest integer, ties to even, with the sign kept
    on a zero result. *)
Definition rint (x : float64) : float64 :=
  match x with
  | S754_finite s m e =>
      if (0 <=? e)%Z then x
      else binary_normalize F64.prec F64.emax
             (cond_Zopp s (Dec.div_half_even (Zpos m) (2 ^ (- e)))) 0 s
  | _ => x
  end.

(** [round(x, decimals)]: [rint(x * 10**decimals) / 10**decimals], and
    [rint(x / 10**-decimals) * 10**-decimals] for negative [decimals].
    The power of ten is a [float64]; it is exact up to [10**22], which
    covers the call [round(x, 3)] of the helper.  A product that
    overflows gives an infinity. *)
Definition round (x : float64) (decimals : Z) : float64 :=
  let factor := F64.of_int (10 ^ Z.abs decimals) in
  if (decimals =? 0)%Z then rint x
  else if (0 <? decimals)%Z then F64.div (rint (F64.mul x factor)) factor
  else F64.mul (rint (F64.div x factor)) factor.

End Np.

(** Python's own routines on floats: the rounding of the exact value of a
    float to decimals, which is what the builtin [round] does on a Python
    [float], and the text of a float, the shortest decimal that reads back
    as the same float. *)
Module Py.
Import Dec.

(** Decimal rounding to the nearest, ties to even, of the exact value of
    the float. *)
Definition round (x : float64) (ndigits : Z) : float64 :=
  match x with
  | S754_finite s m e =>
      let f := scale10 (to_frac m e) ndigits in
      let q := div_half_even f.1 f.2 in
      let r := scale10 (q, 1%Z) (- ndigits) in
      of_ratio s r.1 r.2
  | _ => x
  end.

(** The decimal exponent of a positive fraction: the [p] with
    [10^(p-1) <= f < 10^p], searched upwards from a lower estimate. *)
Fixpoint decpt_from (fuel : nat) (f : Z * Z) (p : Z) : Z :=
  match fuel with
  | O => p
  | S fuel' =>
      let g := scale10 f (- p) in
      if (g.1 <? g.2)%Z then p else decpt_from fuel' f (p + 1)
  end.

Definition decpt (f : Z * Z) : Z :=
  let estimate := ((Z.log2 f.1 - Z.log2 f.2 - 1) * 30103 / 100000 - 1)%Z in
  decpt_from 6 f estimate.

(** Removal of the trailing zeros of a decimal number. *)
Fixpoint strip_zeros (fuel : nat) (d : Z) : Z :=
  match fuel with
  | O => d
  | S fuel' =>
      if ((d mod 10 =? 0) && negb (d =? 0))%Z
      then strip_zeros fuel' (d / 10)%Z else d
  end.

(** Whether the decimal [d * 10^ex] reads back as the finite float [x]. *)
Definition reads_back (x : float64) (d ex : Z) : bool :=
  let back := scale10 (d, 1%Z) ex in
  match x, of_ratio false back.1 back.2 with
  | S754_finite _ m e, S754_finite _ m' e' => (m =? m')%positive && (e =? e')%Z
  | _, _ => false
  end.

(** The shortest decimal with at most [k + fuel] digits that reads back
    as [x]: its digits [d] and the exponent [ex] of [d * 10^ex].  With a
    given number of digits the two decimals around [x] are tried, the
    nearer one first. *)
Fixpoint shortest_from (fuel : nat) (x : float64) (f : Z * Z) (p : Z)
  (k : Z) : Z * Z :=
  let g := scale10 f (k - p) in
  let near := div_half_even g.1 g.2 in
  let low := (g.1 / g.2)%Z in
  let far := if (near =? low)%Z then (low + 1)%Z else low in
  match fuel with
  | O => (near, (p - k)%Z)
  | S fuel' =>
      if reads_back x near (p - k) then (near, (p - k)%Z)
      else if reads_back x far (p - k) then (far, (p - k)%Z)
      else shortest_from fuel' x f p (k + 1)
  end.

Fixpoint zeros (n : nat) : string :=
  match n with
  | O => ""
  | S n' => "0" +:+ zeros n'
  end.

Definition take_string (n : nat) (s : string) : string :=
  String.substring 0 n s.
Definition drop_string (n : nat) (s : string) : string :=
  String.substring n (String.length s - n) s.

(** The text of the number [0.digits * 10^p]: positional when
    [-4 < p <= 16], with an exponent otherwise. *)
Definition render (digits : string) (p : Z) : string :=
  let n := Z.of_nat (String.length digits) in
  if ((-4 <? p) && (p <=? 0))%Z then
    "0." +:+ zeros (Z.to_nat (- p)) +:+ digits
  else if ((0 <? p) && (p <? n))%Z then
    take_string (Z.to_nat p) digits +:+ "." +:+ drop_string (Z.to_nat p) digits
  else if ((n <=? p) && (p <=? 16))%Z then
    digits +:+ zeros (Z.to_nat (p - n)) +:+ ".0"
  else
    let exponent := (p - 1)%Z in
    let shown := pretty (Z.abs exponent) in
    take_string 1 digits
      +:+ (if (1 <? n)%Z then "." +:+ drop_string 1 digits else "")
      +:+ "e" +:+ (if (exponent <? 0)%Z then "-" else "+")
      +:+ (if (Z.abs exponent <? 10)%Z then "0" else "") +:+ shown.

Definition str_float (x : float64) : string :=
  match x with
  | S754_zero s => if s then "-0.0" else "0.0"
  | S754_infinity s => if s then "-inf" else "inf"
  | S754_nan => "nan"
  | S754_finite s m e =>
      let f := to_frac m e in
      let '(d, ex) := shortest_from 16 x f (decpt f) 1 in
      let p := (Z.of_nat (String.length (pretty d)) + ex)%Z in
      (if s then "-" else "") +:+ render (pretty (strip_zeros 17 d)) p
  end.

End Py.

(** ** The runs recorded in the notebooks *)

#[global] Instance spec_float_eq_dec : EqDecision spec_float.
Proof. solve_decision. Defined.

#[global] Instance value_eq_dec : EqDecision value.
Proof. solve_decision. Defined.

(** The grid of the notebook [Random forests], as the notebook writes
    it. *)
Definition rf_grid : param_grid :=
  [("n_estimators", [VInt 5; VInt 50; VInt 250]);
   ("max_depth", [VInt 2; VInt 4; VInt 8; VInt 16; VInt 32; VNone])].

(** The grid of the notebook [Boosting], as the notebook writes it. *)
Definition gb_grid : param_grid :=
  [("n_estimators", [VInt 5; VInt 50; VInt 250; VInt 500]);
   ("max_depth", [VInt 1; VInt 3; VInt 5; VInt 7; VInt 9]);
   ("learning_rate",
    [VFloat (Dec.of_ratio false 1 100); VFloat (Dec.of_ratio false 1 10);
     VInt 1; VInt 10; VInt 100])].

(** The trial lines in the output of [Random forests]: mean and band of
    each configuration in thousandths, in the order of the lines. *)
Definition rf_table : list (Z * Z) :=
  [(805, 146); (811, 82); (802, 131); (805, 69); (817, 83); (826, 104);
   (820, 44); (817, 58); (818, 65); (805, 44); (813, 16); (809, 34);
   (800, 93); (815, 46); (811, 21); (815, 37); (815, 38); (809, 25)]%Z.

(** The trial lines in the output of [Boosting]. *)
Definition gb_table : list (Z * Z) :=
  [(624, 7); (796, 115); (796, 115); (811, 117); (624, 7); (811, 69);
   (830, 74); (841, 77); (624, 7); (820, 51); (818, 43); (826, 47);
   (624, 7); (817, 49); (816, 38); (803, 21); (624, 7); (803, 59);
   (798, 42); (794, 48); (796, 115); (815, 119); (818, 111); (828, 92);
   (813, 71); (841, 70); (826, 32); (809, 40); (817, 45); (818, 41);
   (802, 49); (800, 38); (822, 51); (796, 26); (798, 55); (798, 28);
   (798, 40); (792, 30); (788, 19); (794, 39); (818, 99); (832, 81);
   (826, 77); (822, 81); (820, 61); (792, 42); (790, 38); (788, 38);
   (790, 28); (794, 48); (788, 41); (794, 37); (787, 38); (794, 57);
   (794, 43); (783, 27); (786, 40); (788, 43); (785, 32); (788, 59);
   (204, 115); (204, 115); (204, 115); (204, 115); (307, 195); (307, 195);
   (307, 195); (307, 195); (492, 342); (438, 304); (404, 218); (402, 213);
   (644, 190); (597, 184); (605, 167); (620, 172); (693, 105); (693, 100);
   (706, 116); (710, 123); (376, 7); (376, 7); (376, 7); (376, 7);
   (290, 102); (290, 102); (290, 102); (290, 102); (356, 186); (344, 178);
   (344, 179); (354, 183); (552, 110); (560, 116); (562, 113); (590, 96);
   (672, 59); (655, 57); (672, 66); (674, 90)]%Z.

(** The fitted search of [Random forests] as far as the output of the
    notebook shows it: the header gives [best_params_], the trial lines
    give the three columns. *)
Definition rf_recorded : GridSearchCV :=
  {| best_params_ := [("max_depth", VInt 4); ("n_estimators", VInt 250)];
     cv_results_ :=
       {| mean_test_score :=
            (fun row => Dec.of_ratio false row.1 1000) <$> rf_table;
          std_test_score :=
            (fun row => Dec.of_ratio false row.2 2000) <$> rf_table;
          params :=
            depth ← [VInt 2; VInt 4; VInt 8; VInt 16; VInt 32; VNone];
            n ← [VInt 5; VInt 50; VInt 250];
            [[("max_depth", depth); ("n_estimators", n)]] |} |}.

(** A scoring function that gives every configuration of [grid] the
    score of its line in [table]: the mean as shown, and half of the band
    as standard deviation. *)
Definition recorded_score (grid : param_grid) (table : list (Z * Z))
  (d : dict) : float64 * float64 :=
  match list_find (fun d' => d' = d) (ParameterGrid grid) with
  | Some (i, _) =>
      match table !! i with
      | Some (mean, band) =>
          (Dec.of_ratio false mean 1000, Dec.of_ratio false band 2000)
      | None => (S754_nan, S754_nan)
      end
  | None => (S754_nan, S754_nan)
  end.

(** A grid of four configurations in which the second and the fourth
    share the highest mean. *)
Definition tie_grid : param_grid :=
  [("n_estimators", [VInt 5; VInt 50]); ("max_depth", [VInt 2; VInt 4])].

Definition tie_table : list (Z * Z) :=
  [(805, 146); (826, 82); (811, 69); (826, 104)]%Z.


(** ** A run of a notebook, cell by cell *)

(** The five model families. *)
Inductive family : Type :=
  | LogisticRegression
  | SupportVectorMachine
  | MultiLayerPerceptron
  | RandomForest
  | GradientBoosting.

Module Session.

(** The exceptions that stop a run: a file that is not there, and any
    other exception, by the name of its class. *)
Inductive exn : Type :=
  | FileNotFoundError (path : string)
  | Exception (class : string).

Inductive result (A : Type) : Type :=
  | Ok (a : A)
  | Raise (e : exn).

Arguments Ok {A} a.
Arguments Raise {A} e.

(** What a run acts on: standard output, the values that the notebook
    displays under a cell, and the files by path. *)
Record state : Type := {
  printed : stdout;
  displayed : list string;
  disk : gmap string (list Byte.byte)
}.

Definition train_features : string := "./dataset/train_features.csv".
Definition train_labels : string := "./dataset/train_labels.csv".

(** The fixed relative directory of the persisted models. *)
Definition models_dir : string := "./models/".

(** [repr] of a list of [str], as the notebook displays it. *)
Fixpoint repr_items (l : list string) : string :=
  match l with
  | [] => ""
  | [x] => Repr.repr_str x
  | x :: l' => Repr.repr_str x +:+ ", " +:+ repr_items l'
  end.

Definition repr_list (l : list string) : string := "[" +:+ repr_items l +:+ "]".

Section Cells.

(** A pandas [DataFrame], a one-dimensional array, a fitted model. *)
Variable frame : Type.
Variable array : Type.
Variable estimator : Type.

(** The exception, if any, with which an import of cell 1 fails. *)
Variable import_error : option exn.

(** The library routines that the cells call: the reading of the text of
    a CSV file, which gives a table or raises the exception with which
    pandas rejects the text; [frame.values.ravel()]; [str] of a model of
    the named class with its default hyperparameters; the text that the
    notebook displays for a fitted model; the serialization of [joblib]. *)
Variable parse_csv : list Byte.byte -> result frame.
Variable values_ravel : frame -> array.
Variable str_default : string -> string.
Variable repr_estimator : estimator -> string.
Variable dumps : estimator -> list Byte.byte.

(** Whether writing a model to a path fails, which depends on what is
    outside of the notebook (a missing directory, a refused access, a full
    disk): the exception, and the bytes that are at the path afterwards
    when the failure has left a file there. *)
Variable dump_error :
  estimator -> string -> option (exn * option (list Byte.byte)).

Variable round : float64 -> Z -> float64.
Variable str_float : float64 -> string.

(** [GridSearchCV(model, parameters, cv=5)] followed by [fit(X, y)], for
    the model class of the given name: the fitted search with its
    [best_estimator_], or the exception that the fit raises. *)
Variable search :
  string -> param_grid -> frame -> array -> result (GridSearchCV * estimator).

(** [pd.read_csv(path)] *)
Definition read_csv (path : string) (s : state) : result frame :=
  match disk s !! path with
  | None => Raise (FileNotFoundError path)
  | Some bytes => parse_csv bytes
  end.

(** [joblib.dump(obj, path)]: writes the file, replacing an older one, and
    returns the list of the file names written.  When it raises, the file
    at the path is as before, or holds what the failure has left. *)
Definition joblib_dump (obj : estimator) (path : string)
  (fs : gmap string (list Byte.byte))
  : gmap string (list Byte.byte) * result (list string) :=
  match dump_error obj path with
  | Some (e, Some bytes) => (<[path := bytes]> fs, Raise e)
  | Some (e, None) => (fs, Raise e)
  | None => (<[path := dumps obj]> fs, Ok [path])
  end.

(** Cell 2: [print(Classifier())] and [print(Regressor())]. *)
Definition exploring (classifier regressor : string) (s : state) : state :=
  {| printed := print (str_default regressor)
                  (print (str_default classifier) (printed s));
     displayed := displayed s;
     disk := disk s |}.

(** Cell 3: the two tables of the training partition. *)
Definition loading (s : state) : result (frame * frame) :=
  match read_csv train_features s with
  | Raise e => Raise e
  | Ok tr_features =>
      match read_csv train_labels s with
      | Raise e => Raise e
      | Ok tr_labels => Ok (tr_features, tr_labels)
      end
  end.

(** Cell 5: the search, then [print_results(cv)]. *)
Definition tuning (classifier : string) (parameters : param_grid)
  (tr_features tr_labels : frame) (s : state)
  : state * result (GridSearchCV * estimator) :=
  match search classifier parameters tr_features (values_ravel tr_labels) with
  | Raise e => (s, Raise e)
  | Ok cv =>
      ({| printed := print_results round str_float cv.1 (printed s);
          displayed := displayed s;
          disk := disk s |}, Ok cv)
  end.

(** Cell 6: [cv.best_estimator_], displayed by the notebook. *)
Definition showing (cv : GridSearchCV * estimator) (s : state) : state :=
  {| printed := printed s;
     displayed := displayed s ++ [repr_estimator cv.2];
     disk := disk s |}.

(** Cell 7: [joblib.dump(cv.best_estimator_, path)]; the notebook
    displays the list of file names that it returns. *)
Definition writing (path : string) (cv : GridSearchCV * estimator)
  (s : state) : state * result unit :=
  match joblib_dump cv.2 path (disk s) with
  | (fs, Raise e) =>
      ({| printed := printed s; displayed := displayed s; disk := fs |},
       Raise e)
  | (fs, Ok names) =>
      ({| printed := printed s;
          displayed := displayed s ++ [repr_list names];
          disk := fs |}, Ok tt)
  end.

(** The cells in the order of the notebook, from the imports of cell 1;
    an exception ends the run and keeps what the earlier cells did. *)
Definition run_all (classifier regressor : string) (parameters : param_grid)
  (path : string) (s : state) : state * result unit :=
  match import_error with
  | Some e => (s, Raise e)
  | None =>
      let s := exploring classifier regressor s in
      match loading s with
      | Raise e => (s, Raise e)
      | Ok (tr_features, tr_labels) =>
          match tuning classifier parameters tr_features tr_labels s with
          | (s, Raise e) => (s, Raise e)
          | (s, Ok cv) => writing path cv (showing cv s)
          end
      end
  end.

(** The two notebooks of the sources. *)
Definition run_Random_forests : state -> state * result unit :=
  run_all "RandomForestClassifier" "RandomForestRegressor" rf_grid
          "./models/Random_forest_model.pkl".

Definition run_Boosting : state -> state * result unit :=
  run_all "GradientBoostingClassifier" "GradientBoostingRegressor"
          gb_grid "./models/Boosting_model.pkl".

(** The notebooks of the three other families are not part of the
    sources.  The names of the classes that their second cell prints,
    their grids and their file names are not known. *)
Variable lr_classes svm_classes mlp_classes : string * string.
Variable lr_grid svm_grid mlp_grid : param_grid.
Variable lr_file svm_file mlp_file : string.

(** Modelled from the spec: the classes, the grid and the file name of
    the notebook of each family; those of the three notebooks that are
    missing are the parameters above. *)
Definition classes_of (f : family) : string * string :=
  match f with
  | LogisticRegression => lr_classes
  | SupportVectorMachine => svm_classes
  | MultiLayerPerceptron => mlp_classes
  | RandomForest => ("RandomForestClassifier", "RandomForestRegressor")
  | GradientBoosting =>
      ("GradientBoostingClassifier", "GradientBoostingRegressor")
  end.

Definition grid_of (f : family) : param_grid :=
  match f with
  | LogisticRegression => lr_grid
  | SupportVectorMachine => svm_grid
  | MultiLayerPerceptron => mlp_grid
  | RandomForest => rf_grid
  | GradientBoosting => gb_grid
  end.

Definition file_of (f : family) : string :=
  match f with
  | LogisticRegression => lr_file
  | SupportVectorMachine => svm_file
  | MultiLayerPerceptron => mlp_file
  | RandomForest => "Random_forest_model.pkl"
  | GradientBoosting => "Boosting_model.pkl"
  end.

(** Modelled from the spec: the notebook of a family.  The notebooks of
    logistic regression, of the support-vector machine and of the
    multi-layer perceptron are not part of the sources; each "define[s] a
    hyperparameter grid and run[s] k-fold cross-validated grid search",
    then "persist[s the] family's best estimator to disk", as "one
    serialized estimator file per model family, written to a fixed
    relative models directory".  They are taken to have the cells of the
    two notebooks of the sources.  For the random forest and for gradient
    boosting this is [run_Random_forests] and [run_Boosting]. *)
Definition run_notebook (f : family) : state -> state * result unit :=
  run_all (classes_of f).1 (classes_of f).2 (grid_of f)
          (models_dir +:+ file_of f).

(** Modelled from the spec: notebooks run one after the other, up to the
    first one that raises. *)
Fixpoint run_each (fs : list family) (s : state) : state * result unit :=
  match fs with
  | [] => (s, Ok tt)
  | f :: fs' =>
      match run_notebook f s with
      | (s', Ok _) => run_each fs' s'
      | (s', Raise e) => (s', Raise e)
      end
  end.

(** Modelled from the spec: steps 2 and 3 of the pipeline, the notebooks
    of the five families; two of them are in the sources. *)
Definition train_all : state -> state * result unit :=
  run_each [LogisticRegression; SupportVectorMachine; MultiLayerPerceptron;
            RandomForest; GradientBoosting].

End Cells.

End Session.

(** ** The comparison of the persisted models *)

(** Modelled from the spec: the evaluation record of the comparison,
    which is not part of the sources: "model name, accuracy, precision,
    recall, and measured inference latency".  A ratio is kept as the pair
    of its numerator and denominator. *)
Record evaluation : Type := {
  model_name : string;
  accuracy : nat * nat;
  precision : nat * nat;
  recall : nat * nat;
  latency : Z
}.

(** [count f labels predictions]: the rows on which [f label prediction]
    holds. *)
Definition count (f : bool -> bool -> bool) (labels predictions : list bool)
  : nat :=
  length (filter (fun lp => f lp.1 lp.2 = true)
                 (zip_with pair labels predictions)).

(** Modelled from the spec: the three metrics of the comparison, which
    are scikit-learn's and not part of the sources.  Accuracy: agreeing
    rows out of all rows. *)
Definition accuracy_score (labels predictions : list bool) : nat * nat :=
  (count (fun l p => bool_decide (l = p)) labels predictions,
   count (fun _ _ => true) labels predictions).

(** Modelled from the spec: precision, true positives out of predicted
    positives. *)
Definition precision_score (labels predictions : list bool) : nat * nat :=
  (count andb labels predictions, count (fun _ p => p) labels predictions).

(** Modelled from the spec: recall, true positives out of actual
    positives. *)
Definition recall_score (labels predictions : list bool) : nat * nat :=
  (count andb labels predictions, count (fun l _ => l) labels predictions).

Section Comparison.

(** A fitted model, and the reading of its serialized form. *)
Variable estimator : Type.
Variable loads : list Byte.byte -> option estimator.

(** A table of feature vectors, and the prediction of a fitted model for
    each of its rows. *)
Variable table : Type.
Variable predict : estimator -> table -> list bool.

(** The validation partition and the wall clock: [clock k] is the time
    shown at the reading number [k]. *)
Variable val_features : table.
Variable val_labels : list bool.
Variable clock : nat -> Z.
Variable str_evaluation : evaluation -> string.

(** The state that the comparison acts on: standard output, the files by
    path, the number of clock readings taken so far, and the names of the
    models that were asked for predictions. *)
Record world : Type := {
  out : stdout;
  files : gmap string (list Byte.byte);
  ticks : nat;
  predicted : list string
}.

(** Modelled from the spec: a reading of the wall clock. *)
Definition time (w : world) : Z * world :=
  (clock (ticks w),
   {| out := out w; files := files w;
      ticks := S (ticks w); predicted := predicted w |}).

(** Modelled from the spec: the predictions of a model on the validation
    partition; the world records the name of the model that was asked. *)
Definition predict_on (name : string) (mdl : estimator) (w : world)
  : list bool * world :=
  (predict mdl val_features,
   {| out := out w; files := files w; ticks := ticks w;
      predicted := predicted w ++ [name] |}).

(** Modelled from the spec: one round of the comparison loop, which is not
    part of the sources: "reload [the estimator], run it once over the
    validation partition to obtain predictions, compute
    accuracy/precision/recall against true labels, measure wall-clock
    inference time, and print a row".  A missing or unreadable file is an
    uncaught error, and so are predictions that are not one per true
    label, which the metrics reject. *)
Definition evaluate_model (name path : string) (w : world) : option world :=
  bytes ← files w !! path;
  mdl ← loads bytes;
  let '(start, w) := time w in
  let '(pred, w) := predict_on name mdl w in
  let '(stop, w) := time w in
  if decide (length pred = length val_labels) then
    let row := {| model_name := name;
                  accuracy := accuracy_score val_labels pred;
                  precision := precision_score val_labels pred;
                  recall := recall_score val_labels pred;
                  latency := (stop - start)%Z |} in
    Some {| out := print (str_evaluation row) (out w); files := files w;
            ticks := ticks w; predicted := predicted w |}
  else None.

(** Modelled from the spec: the comparison loop over "a fixed set of
    named, persisted estimators", given as names with their paths. *)
Fixpoint compare_models (models : list (string * string)) (w : world)
  : option world :=
  match models with
  | [] => Some w
  | (name, path) :: models' =>
      w ← evaluate_model name path w; compare_models models' w
  end.

End Comparison.

(** ** A small model family, to run the workflow *)

(** A decision stump on one integer feature: a row is predicted positive
    when the feature reaches the threshold.  The threshold is one byte,
    which is also the serialized form. *)
Module Stump.

Definition estimator : Type := Byte.byte.
Definition table : Type := list Z.

Definition predict (mdl : estimator) (rows : table) : list bool :=
  (fun x => (Z.of_N (Byte.to_N mdl) <=? x)%Z) <$> rows.

Definition dumps (mdl : estimator) : list Byte.byte := [mdl].

Definition loads (bytes : list Byte.byte) : option estimator :=
  match bytes with
  | [mdl] => Some mdl
  | _ => None
  end.

(** The threshold is the first value of the configuration when that is
    an integer, and 0 otherwise. *)
Definition refit (d : dict) : estimator :=
  match d with
  | (_, VInt n) :: _ => default Byte.x00 (Byte.of_N (Z.to_N n `mod` 256))
  | _ => Byte.x00
  end.

Definition str_ratio (r : nat * nat) : string :=
  pretty r.1 +:+ "/" +:+ pretty r.2.

Definition str_evaluation (row : evaluation) : string :=
  model_name row +:+ " -- Accuracy: " +:+ str_ratio (accuracy row)
    +:+ " / Precision: " +:+ str_ratio (precision row)
    +:+ " / Recall: " +:+ str_ratio (recall row)
    +:+ " / Latency: " +:+ pretty (latency row) +:+ "ms".

Definition clock (k : nat) : Z := (1000 + 7 * Z.of_nat k * Z.of_nat k)%Z.

Definition val_features : table := [1; 3; 4; 6; 9]%Z.
Definition val_labels : list bool := [false; true; false; true; true].

Definition compare_models : list (string * string) -> world -> option world :=
  compare_models estimator loads table predict val_features val_labels
                 clock str_evaluation.

(** Three persisted stumps, and the models to compare. *)
Definition persisted : world :=
  {| out := [];
     files := <["./models/Random_forest_model.pkl" := [Byte.x04]]>
                (<["./models/Boosting_model.pkl" := [Byte.x00]]>
                   (<["./models/LR_model.pkl" := [Byte.x02]]> ∅));
     ticks := 0;
     predicted := [] |}.

Definition models : list (string * string) :=
  [("RF", "./models/Random_forest_model.pkl");
   ("GB", "./models/Boosting_model.pkl");
   ("LR", "./models/LR_model.pkl")].

End Stump.

(** ** A small session, to run a notebook *)

(** Tables are kept as their bytes, an empty file is not a table, a model
    is one byte.  The first search reports the result recorded in
    [Random forests]; the second one stands for a rerun that comes out
    differently; the third one is the modelled search on the scores that
    the notebooks show. *)
Module Demo.

Definition parse_csv (bytes : list Byte.byte)
  : Session.result (list Byte.byte) :=
  match bytes with
  | [] => Session.Raise (Session.Exception "EmptyDataError")
  | _ => Session.Ok bytes
  end.

Definition values_ravel (table : list Byte.byte) : list Byte.byte := table.

Definition str_default (class : string) : string := class +:+ "()".

Definition repr_estimator (mdl : Byte.byte) : string :=
  "Stump(" +:+ pretty (Byte.to_N mdl) +:+ ")".

Definition search1 (class : string) (grid : param_grid)
  (X y : list Byte.byte) : Session.result (GridSearchCV * Byte.byte) :=
  if String.eqb class "RandomForestClassifier"
  then Session.Ok (rf_recorded, Byte.x04)
  else Session.Raise (Session.Exception "ValueError").

Definition search2 (class : string) (grid : param_grid)
  (X y : list Byte.byte) : Session.result (GridSearchCV * Byte.byte) :=
  if String.eqb class "RandomForestClassifier"
  then Session.Ok ({| best_params_ := [("max_depth", VInt 8)];
                      cv_results_ := cv_results_ rf_recorded |}, Byte.x08)
  else Session.Raise (Session.Exception "ValueError").

Definition search (class : string) (grid : param_grid)
  (X y : list Byte.byte) : Session.result (GridSearchCV * Byte.byte) :=
  let score :=
    if String.eqb class "RandomForestClassifier"
    then recorded_score rf_grid rf_table
    else if String.eqb class "GradientBoostingClassifier"
    then recorded_score gb_grid gb_table
    else recorded_score tie_grid tie_table in
  match fit score grid with
  | Some cv => Session.Ok (cv, Stump.refit (best_params_ cv))
  | None => Session.Raise (Session.Exception "ValueError")
  end.

(** Writing a model succeeds, or fails for a missing directory. *)
Definition dump_ok (mdl : Byte.byte) (path : string)
  : option (Session.exn * option (list Byte.byte)) := None.

Definition dump_no_directory (mdl : Byte.byte) (path : string)
  : option (Session.exn * option (list Byte.byte)) :=
  Some (Session.FileNotFoundError path, None).

Definition run
  (search : string -> param_grid -> list Byte.byte -> list Byte.byte
            -> Session.result (GridSearchCV * Byte.byte))
  : Session.state -> Session.state * Session.result unit :=
  Session.run_Random_forests (list Byte.byte) (list Byte.byte) Byte.byte
    None parse_csv values_ravel str_default repr_estimator Stump.dumps
    dump_ok Np.round Py.str_float search.

Definition run_no_directory
  : Session.state -> Session.state * Session.result unit :=
  Session.run_Random_forests (list Byte.byte) (list Byte.byte) Byte.byte
    None parse_csv values_ravel str_default repr_estimator Stump.dumps
    dump_no_directory Np.round Py.str_float search1.

Definition lr_classes : string * string :=
  ("LogisticRegression", "LogisticRegression").
Definition svm_classes : string * string := ("SVC", "SVC").
Definition mlp_classes : string * string :=
  ("MLPClassifier", "MLPRegressor").

Definition run_each (fs : list family)
  : Session.state -> Session.state * Session.result unit :=
  Session.run_each (list Byte.byte) (list Byte.byte) Byte.byte
    None parse_csv values_ravel str_default repr_estimator Stump.dumps
    dump_ok Np.round Py.str_float search
    lr_classes svm_classes mlp_classes tie_grid tie_grid tie_grid
    "LR_model.pkl" "SVM_model.pkl" "MLP_model.pkl" fs.

Definition train_all : Session.state -> Session.state * Session.result unit :=
  Session.train_all (list Byte.byte) (list Byte.byte) Byte.byte
    None parse_csv values_ravel str_default repr_estimator Stump.dumps
    dump_ok Np.round Py.str_float search
    lr_classes svm_classes mlp_classes tie_grid tie_grid tie_grid
    "LR_model.pkl" "SVM_model.pkl" "MLP_model.pkl".

(** A fresh session without files, and one with the training partition. *)
Definition empty : Session.state :=
  {| Session.printed := []; Session.displayed := []; Session.disk := ∅ |}.

Definition loaded : Session.state :=
  {| Session.printed := []; Session.displayed := [];
     Session.disk :=
       <[Session.train_features := [Byte.x31; Byte.x2c; Byte.x32]]>
         (<[Session.train_labels := [Byte.x30]]> ∅) |}.

End Demo.

(** * Properties *)

(** ** Order of [float64] values *)

Module F64Facts.
Import F64.

Ltac cmp_cases :=
  repeat match goal with
  | H : context [Z.compare ?a ?b] |- _ => destruct (Z.compare_spec a b); subst
  | |- context [Z.compare ?a ?b] => destruct (Z.compare_spec a b); subst
  | H : context [Pos.compare_cont Eq ?a ?b] |- _ =>
      change (Pos.compare_cont Eq a b) with (Pos.compare a b) in *;
      destruct (Pos.compare_spec a b); subst
  | |- context [Pos.compare_cont Eq ?a ?b] =>
      change (Pos.compare_cont Eq a b) with (Pos.compare a b) in *;
      destruct (Pos.compare_spec a b); subst
  end.

Lemma leb_total (x y : float64) :
  is_nan x = false -> is_nan y = false -> leb x y = true \/ leb y x = true.
Proof.
  unfold leb, SFleb, SFcompare.
  destruct x as [[]|[]| |[] m1 e1], y as [[]|[]| |[] m2 e2]; simpl;
    intros; try discriminate; auto; cmp_cases; simpl; auto; lia.
Qed.

Lemma leb_trans (x y z : float64) :
  leb x y = true -> leb y z = true -> leb x z = true.
Proof.
  unfold leb, SFleb, SFcompare.
  destruct x as [[]|[]| |[] m1 e1], y as [[]|[]| |[] m2 e2],
    z as [[]|[]| |[] m3 e3]; simpl;
    intros; try discriminate; auto; cmp_cases; simpl in *;
    try discriminate; auto; lia.
Qed.

Lemma ltb_leb (x y : float64) :
  is_nan x = false -> is_nan y = false -> ltb x y = negb (leb y x).
Proof.
  unfold ltb, leb, SFltb, SFleb, SFcompare.
  destruct x as [[]|[]| |[] m1 e1], y as [[]|[]| |[] m2 e2]; simpl;
    intros; try discriminate; auto; cmp_cases; simpl; auto; lia.
Qed.

Lemma leb_refl (x : float64) : is_nan x = false -> leb x x = true.
Proof. intros Hx. destruct (leb_total x x Hx Hx); assumption. Qed.

Lemma ltb_le (x y : float64) :
  is_nan x = false -> is_nan y = false -> ltb x y = true -> leb x y = true.
Proof.
  intros Hx Hy. rewrite (ltb_leb x y Hx Hy).
  destruct (leb_total x y Hx Hy) as [H | H]; [auto | rewrite H; discriminate].
Qed.

Lemma leb_ltb_trans (x y z : float64) :
  is_nan x = false -> is_nan y = false -> is_nan z = false ->
  leb x y = true -> ltb y z = true -> ltb x z = true.
Proof.
  intros Hx Hy Hz Hxy. rewrite (ltb_leb y z Hy Hz), (ltb_leb x z Hx Hz).
  destruct (leb z x) eqn:Hzx; [| reflexivity].
  rewrite (leb_trans z x y Hzx Hxy). discriminate.
Qed.

Lemma ltb_trans (x y z : float64) :
  is_nan x = false -> is_nan y = false -> is_nan z = false ->
  ltb x y = true -> ltb y z = true -> ltb x z = true.
Proof.
  intros Hx Hy Hz Hxy. apply leb_ltb_trans; auto using ltb_le.
Qed.

(** Doubling is exact.  The product of a normal [float64] with the
    integer 2 has the same mantissa and the next exponent, as long as it
    does not overflow: [std * 2] is twice [std], without rounding. *)

Lemma mantissa_shift52 (m : positive) :
  (m * 4503599627370496)%positive = Pos.iter xO m 52.
Proof. rewrite !Pos.mul_xO_r, Pos.mul_1_r. reflexivity. Qed.

Lemma shr_shift52 (m : positive) :
  SpecFloat.iter_pos shr_1 52
    {| shr_m := Z.pos (Pos.iter xO m 52); shr_r := false; shr_s := false |}
  = {| shr_m := Z.pos m; shr_r := false; shr_s := false |}.
Proof. reflexivity. Qed.

Lemma mul_two_normal (s : bool) (m : positive) (e : Z) :
  digits2_pos m = 53%positive ->
  (-1074 <= e <= 970)%Z ->
  mul (S754_finite s m e) (of_int 2) = S754_finite s m (e + 1).
Proof.
  intros Hm He.
  assert (Hdigits : digits2_pos (Pos.iter xO m 52) = 105%positive).
  { cbn [Pos.iter digits2_pos]. rewrite Hm. reflexivity. }
  assert (Hfirst : (fexp 53 1024 (Z.pos 105 + (e + -51)) - (e + -51) = 52)%Z).
  { unfold fexp, emin. lia. }
  assert (Hsecond :
    (fexp 53 1024 (Z.pos 53 + (e + -51 + 52)) - (e + -51 + 52) = 0)%Z).
  { unfold fexp, emin. lia. }
  change (of_int 2) with (S754_finite false 4503599627370496 (-51)).
  unfold mul, prec, emax, SFmul. rewrite xorb_false_r, mantissa_shift52.
  unfold binary_round_aux, shr_fexp, Zdigits2.
  rewrite Hdigits, Hfirst.
  cbn [shr shr_record_of_loc]. rewrite shr_shift52.
  cbn [shr_m loc_of_shr_record round_nearest_even].
  rewrite Hm, Hsecond.
  cbn [shr shr_record_of_loc shr_m].
  replace (e + -51 + 52)%Z with (e + 1)%Z by lia.
  destruct (Z.leb_spec (e + 1) (1024 - 53)); [reflexivity | lia].
Qed.

End F64Facts.

(** ** [zip] *)

Lemma zip_length {A B C : Type} (xs : list A) (ys : list B) (zs : list C) :
  length (zip xs ys zs) = length xs `min` (length ys `min` length zs).
Proof.
  revert ys zs. induction xs as [| x xs IH]; intros [| y ys] [| z zs];
    simpl; try reflexivity.
  rewrite IH. reflexivity.
Qed.

Lemma zip_lookup {A B C : Type} (xs : list A) (ys : list B) (zs : list C)
  (i : nat) (x : A) (y : B) (z : C) :
  zip xs ys zs !! i = Some (x, y, z) <->
  xs !! i = Some x /\ ys !! i = Some y /\ zs !! i = Some z.
Proof.
  revert ys zs i. induction xs as [| x' xs IH]; intros [| y' ys] [| z' zs] i;
    simpl; try (split; [discriminate | intros (? & ? & ?); discriminate]).
  destruct i as [| i]; simpl.
  - split; [intros [= -> -> ->]; auto | intros ([= ->] & [= ->] & [= ->]); auto].
  - apply IH.
Qed.

(** The configurations on the trial lines are a prefix of [params]. *)
Lemma zip_params_prefix {A B C : Type} (xs : list A) (ys : list B)
  (zs : list C) :
  (fun t => t.2) <$> zip xs ys zs = take (length (zip xs ys zs)) zs.
Proof.
  revert ys zs. induction xs as [| x xs IH]; intros [| y ys] [| z zs];
    simpl; try reflexivity.
  rewrite IH. reflexivity.
Qed.

(** ** [print_results] *)

Section PrintResultsFacts.

Variable round : float64 -> Z -> float64.
Variable str_float : float64 -> string.

(** What one iteration of the loop writes. *)
Local Abbreviation written := (fun t : float64 * float64 * dict =>
  trial_line round str_float t.1.1 t.1.2 t.2 +:+ nl).

Lemma loop_writes (trials : list (float64 * float64 * dict)) (out : stdout) :
  foldl (fun out '(mean, std, p) =>
           print (trial_line round str_float mean std p) out) out trials
  = out ++ (written <$> trials).
Proof.
  revert out. induction trials as [| [[m s] p] trials IH]; intros out; simpl.
  - rewrite app_nil_r. reflexivity.
  - rewrite IH. unfold print. rewrite <- app_assoc. reflexivity.
Qed.

Lemma print_results_writes (results : GridSearchCV) (out : stdout) :
  print_results round str_float results out
  = out ++ (best_line str_float (best_params_ results) +:+ nl)
        :: (written <$> zip (mean_test_score (cv_results_ results))
                            (std_test_score (cv_results_ results))
                            (params (cv_results_ results))).
Proof.
  unfold print_results. rewrite loop_writes. unfold print.
  rewrite <- app_assoc. reflexivity.
Qed.

Lemma append_assoc (a b c : string) : (a +:+ b) +:+ c = a +:+ b +:+ c.
Proof.
  induction a as [| x a IH]; [reflexivity |].
  change (String x ((a +:+ b) +:+ c) = String x (a +:+ b +:+ c)).
  f_equal. exact IH.
Qed.

(** The header is written with two newlines: the one of the format string
    and the one of [print].  An empty line separates it from the trial
    lines. *)
Lemma header_text (best : dict) :
  best_line str_float best +:+ nl
  = "Best params: " +:+ str_dict str_float best +:+ nl +:+ nl.
Proof. unfold best_line. rewrite !append_assoc. reflexivity. Qed.

End PrintResultsFacts.

(** ** The selection rule *)

Section Argmax.
Import F64 F64Facts.

Local Abbreviation no_nan := (Forall (fun x : float64 => is_nan x = false)).

(** The scan either keeps the index it started with, and nothing in the
    list is above the starting score, or it ends on the first position of
    the list whose score is strictly above everything before it and not
    below anything after it. *)
Lemma argmax_from_spec (l : list float64) :
  forall (best_i : nat) (best : float64) (i : nat),
    is_nan best = false -> no_nan l ->
    (argmax_from best_i best i l = best_i
     /\ Forall (fun x => leb x best = true) l)
    \/ (exists (k : nat) (m : float64),
          argmax_from best_i best i l = i + k
          /\ l !! k = Some m
          /\ ltb best m = true
          /\ Forall (fun x => leb x m = true) l
          /\ forall (j : nat) (x : float64),
               j < k -> l !! j = Some x -> ltb x m = true).
Proof.
  induction l as [| x l IH]; intros best_i best i Hb Hl; simpl.
  - left. split; [reflexivity | constructor].
  - apply Forall_cons in Hl as [Hx Hl].
    destruct (ltb best x) eqn:Hlt.
    + right. destruct (IH i x (S i) Hx Hl)
        as [[Hr Hall] | (k & m & Hr & Hk & Hxm & Hall & Hbefore)].
      * exists 0, x. rewrite Hr.
        split; [lia |]. split; [reflexivity |]. split; [exact Hlt |].
        split.
        -- constructor; [apply leb_refl; exact Hx | exact Hall].
        -- intros j y Hj. lia.
      * assert (Hm : is_nan m = false).
        { eapply Forall_lookup_1 in Hl; [exact Hl | exact Hk]. }
        exists (S k), m. rewrite Hr.
        split; [lia |]. split; [exact Hk |]. split; [| split].
        -- apply ltb_trans with x; auto.
        -- constructor; [apply ltb_le; auto | exact Hall].
        -- intros [| j] y Hj Hy; simpl in Hy.
           ++ injection Hy as <-. exact Hxm.
           ++ apply (Hbefore j); [lia | exact Hy].
    + assert (Hxb : leb x best = true).
      { rewrite (ltb_leb best x Hb Hx) in Hlt.
        apply negb_false_iff. exact Hlt. }
      destruct (IH best_i best (S i) Hb Hl)
        as [[Hr Hall] | (k & m & Hr & Hk & Hbm & Hall & Hbefore)].
      * left. split; [exact Hr | constructor; assumption].
      * assert (Hm : is_nan m = false).
        { eapply Forall_lookup_1 in Hl; [exact Hl | exact Hk]. }
        right. exists (S k), m. rewrite Hr.
        split; [lia |]. split; [exact Hk |]. split; [exact Hbm |]. split.
        -- constructor; [| exact Hall].
           apply ltb_le; auto. apply leb_ltb_trans with best; auto.
        -- intros [| j] y Hj Hy; simpl in Hy.
           ++ injection Hy as <-. apply leb_ltb_trans with best; auto.
           ++ apply (Hbefore j); [lia | exact Hy].
Qed.

(** [argmax] returns the first index that holds a maximal score. *)
Lemma argmax_first_max (l : list float64) (i : nat) :
  no_nan l -> argmax l = Some i ->
  exists m : float64,
    l !! i = Some m
    /\ (forall (j : nat) (x : float64), l !! j = Some x -> leb x m = true)
    /\ (forall (j : nat) (x : float64),
          j < i -> l !! j = Some x -> ltb x m = true).
Proof.
  destruct l as [| x l]; [discriminate |]. intros Hl. simpl.
  apply Forall_cons in Hl as [Hx Hl]. intros [= <-].
  destruct (argmax_from_spec l 0 x 1 Hx Hl)
    as [[Hr Hall] | (k & m & Hr & Hk & Hxm & Hall & Hbefore)]; rewrite Hr.
  - exists x. split; [reflexivity |]. split.
    + intros [| j] y Hy; simpl in Hy.
      * injection Hy as <-. apply leb_refl. exact Hx.
      * eapply Forall_lookup_1 in Hall; [exact Hall | exact Hy].
    + intros j y Hj. lia.
  - assert (Hm : is_nan m = false).
    { eapply Forall_lookup_1 in Hl; [exact Hl | exact Hk]. }
    exists m. split; [exact Hk |]. split.
    + intros [| j] y Hy; simpl in Hy.
      * injection Hy as <-. apply ltb_le; auto.
      * eapply Forall_lookup_1 in Hall; [exact Hall | exact Hy].
    + intros [| j] y Hj Hy; simpl in Hy.
      * injection Hy as <-. exact Hxm.
      * apply (Hbefore j); [lia | exact Hy].
Qed.

End Argmax.

Lemma argmax_from_bound (l : list float64) :
  forall (best_i : nat) (best : float64) (i : nat),
    best_i < i -> argmax_from best_i best i l < i + length l.
Proof.
  induction l as [| x l IH]; intros best_i best i Hi; simpl.
  - lia.
  - destruct (F64.ltb best x).
    + specialize (IH i x (S i)). lia.
    + specialize (IH best_i best (S i)). lia.
Qed.

Lemma argmax_bound (l : list float64) (i : nat) :
  argmax l = Some i -> i < length l.
Proof.
  destruct l as [| x l]; [discriminate |]. simpl. intros [= <-].
  pose proof (argmax_from_bound l 0 x 1). lia.
Qed.

(** ** The enumeration of a grid *)

Lemma length_bind_const {A B : Type} (f : A -> list B) (n : nat)
  (l : list A) :
  (forall x : A, length (f x) = n) -> length (l ≫= f) = length l * n.
Proof.
  intros Hf. induction l as [| x l IH]; [reflexivity |].
  rewrite bind_cons, length_app, Hf, IH. reflexivity.
Qed.

Lemma product_length (grid : param_grid) :
  length (product grid)
  = foldr (fun entry n => length entry.2 * n) 1 grid.
Proof.
  induction grid as [| [name candidates] grid IH]; [reflexivity |].
  cbn [product foldr snd]. rewrite <- IH.
  apply length_bind_const. intros v.
  rewrite (length_bind_const _ 1); [apply Nat.mul_1_r | reflexivity].
Qed.

Lemma insert_item_Permutation (item : string * list value)
  (l : param_grid) :
  insert_item item l ≡ₚ item :: l.
Proof.
  induction l as [| x l IH]; [reflexivity |]. cbn [insert_item].
  destruct (String.leb item.1 x.1); [reflexivity |].
  rewrite IH. apply Permutation_swap.
Qed.

Lemma sorted_items_Permutation (grid : param_grid) :
  sorted_items grid ≡ₚ grid.
Proof.
  induction grid as [| item grid IH]; [reflexivity |].
  unfold sorted_items in *. cbn [foldr].
  rewrite insert_item_Permutation, IH. reflexivity.
Qed.

Lemma configurations_Permutation (g1 g2 : param_grid) :
  g1 ≡ₚ g2 ->
  foldr (fun entry n => length entry.2 * n) 1 g1
  = foldr (fun entry n => length entry.2 * n) 1 g2.
Proof.
  induction 1 as [| x g1 g2 _ IH | x y g | g1 g2 g3 _ IH1 _ IH2];
    cbn [foldr]; [reflexivity | rewrite IH; reflexivity | lia | congruence].
Qed.

(** The number of configurations is the product of the numbers of
    candidate values. *)
Lemma ParameterGrid_length (grid : param_grid) :
  length (ParameterGrid grid)
  = foldr (fun entry n => length entry.2 * n) 1 grid.
Proof.
  unfold ParameterGrid. rewrite product_length.
  apply configurations_Permutation, sorted_items_Permutation.
Qed.

(** ** The fitted search *)

Section FitFacts.

Variable cv_score : dict -> float64 * float64.

Lemma fit_Some (grid : param_grid) (results : GridSearchCV) :
  fit cv_score grid = Some results ->
  params (cv_results_ results) = ParameterGrid grid
  /\ mean_test_score (cv_results_ results)
     = (fun d => (cv_score d).1) <$> ParameterGrid grid
  /\ std_test_score (cv_results_ results)
     = (fun d => (cv_score d).2) <$> ParameterGrid grid
  /\ exists i : nat,
       argmax (mean_test_score (cv_results_ results)) = Some i
       /\ params (cv_results_ results) !! i = Some (best_params_ results).
Proof.
  unfold fit. intros H.
  destruct (argmax _) as [i |] eqn:Hi; simpl in H; [| discriminate].
  destruct (ParameterGrid grid !! i) as [best |] eqn:Hbest; simpl in H;
    [| discriminate].
  injection H as <-. simpl. eauto 10.
Qed.

Lemma fit_is_Some (grid : param_grid) :
  ParameterGrid grid <> [] -> is_Some (fit cv_score grid).
Proof.
  intros Hne. unfold fit.
  destruct (argmax _) as [i |] eqn:Hi; simpl.
  - apply argmax_bound in Hi. rewrite length_fmap in Hi.
    destruct (lookup_lt_is_Some_2 _ _ Hi) as [best ->]. simpl. eauto.
  - destruct (ParameterGrid grid); [congruence | discriminate].
Qed.

Lemma fit_lengths (grid : param_grid) (results : GridSearchCV) :
  fit cv_score grid = Some results ->
  length (zip (mean_test_score (cv_results_ results))
              (std_test_score (cv_results_ results))
              (params (cv_results_ results)))
  = length (ParameterGrid grid).
Proof.
  intros (-> & -> & -> & _)%fit_Some.
  rewrite zip_length, !length_fmap. lia.
Qed.

End FitFacts.

(** ** The report of a search *)

Section SearchReport.

Variable round : float64 -> Z -> float64.
Variable str_float : float64 -> string.
Variable cv_score : dict -> float64 * float64.

Local Abbreviation print_results := (print_results round str_float).
Local Abbreviation trial_line := (trial_line round str_float).
Local Abbreviation best_line := (best_line str_float).
Local Abbreviation written := (fun t : float64 * float64 * dict =>
  trial_line t.1.1 t.1.2 t.2 +:+ nl).
Local Abbreviation trials := (fun results : GridSearchCV =>
  zip (mean_test_score (cv_results_ results))
      (std_test_score (cv_results_ results))
      (params (cv_results_ results))).

Lemma print_results_header (results : GridSearchCV) (out : stdout) :
  print_results results out !! length out
  = Some (best_line (best_params_ results) +:+ nl).
Proof.
  rewrite print_results_writes, lookup_app_r by lia.
  rewrite Nat.sub_diag. reflexivity.
Qed.

Lemma print_results_trial (results : GridSearchCV) (out : stdout) (i : nat) :
  print_results results out !! (length out + S i)
  = written <$> trials results !! i.
Proof.
  rewrite print_results_writes, lookup_app_r by lia.
  replace (length out + S i - length out) with (S i) by lia.
  simpl. rewrite list_lookup_fmap. reflexivity.
Qed.

(** C1 (argmax consistency).  For the result of a search whose mean
    scores are numbers, the configuration on the header line written by
    [print_results] is one of the configurations of the trial lines, and
    its mean score is the maximum of the mean scores of all trial lines:
    no trial line has a greater mean. *)
Theorem best_line_argmax (grid : param_grid) (results : GridSearchCV) :
  fit cv_score grid = Some results ->
  Forall (fun x => F64.is_nan x = false)
         (mean_test_score (cv_results_ results)) ->
  exists (i : nat) (m s : float64),
    trials results !! i = Some (m, s, best_params_ results)
    /\ (forall out : stdout,
          print_results results out !! length out
          = Some (best_line (best_params_ results) +:+ nl)
          /\ print_results results out !! (length out + S i)
             = Some (trial_line m s (best_params_ results) +:+ nl))
    /\ forall (j : nat) (mj sj : float64) (pj : dict),
         trials results !! j = Some (mj, sj, pj) ->
         (forall out : stdout,
            print_results results out !! (length out + S j)
            = Some (trial_line mj sj pj +:+ nl))
         /\ F64.leb mj m = true.
Proof.
  intros Hfit Hnum.
  pose proof (fit_lengths _ _ _ Hfit) as Hlen.
  destruct (fit_Some _ _ _ Hfit) as (Hp & Hm & Hs & i & Hi & Hbest).
  destruct (argmax_first_max _ _ Hnum Hi) as (m & Hmi & Hmax & _).
  assert (Hsi : is_Some (std_test_score (cv_results_ results) !! i)).
  { apply lookup_lt_is_Some. apply lookup_lt_Some in Hbest.
    rewrite Hs, length_fmap. rewrite Hp in Hbest. exact Hbest. }
  destruct Hsi as [s Hsi].
  exists i, m, s.
  assert (Hti : trials results !! i = Some (m, s, best_params_ results)).
  { apply zip_lookup. auto. }
  split; [exact Hti |]. split.
  - intros out. split; [apply print_results_header |].
    rewrite print_results_trial, Hti. reflexivity.
  - intros j mj sj pj Hj. split.
    + intros out. rewrite print_results_trial, Hj. reflexivity.
    + apply zip_lookup in Hj as (Hmj & _ & _). exact (Hmax j mj Hmj).
Qed.

(** The writes for the modelled search: a grid that enumerates at least
    one configuration has a result, and [print_results] writes the header
    and then one text per configuration of the grid. *)
Lemma search_line_count (grid : param_grid) :
  ParameterGrid grid <> [] ->
  exists results : GridSearchCV,
    fit cv_score grid = Some results
    /\ forall out : stdout,
         exists lines : list string,
           print_results results out
           = out ++ (best_line (best_params_ results) +:+ nl) :: lines
           /\ length lines = length (ParameterGrid grid).
Proof.
  intros Hne. destruct (fit_is_Some cv_score grid Hne) as [results Hfit].
  exists results. split; [exact Hfit |]. intros out.
  exists (written <$> trials results).
  split; [apply print_results_writes |].
  rewrite length_fmap. apply (fit_lengths cv_score). exact Hfit.
Qed.

(** C10 (columns of unequal length).  Whatever the lengths of the three
    columns, [print_results] writes the header followed by exactly
    min(length of means, length of stds, length of params) trial lines,
    and what it writes does not depend on the entries beyond that
    position. *)
Theorem print_results_unequal_lengths (results : GridSearchCV)
  (out : stdout) :
  let means := mean_test_score (cv_results_ results) in
  let stds := std_test_score (cv_results_ results) in
  let ps := params (cv_results_ results) in
  let n := length means `min` (length stds `min` length ps) in
  (exists lines : list string,
     print_results results out
     = out ++ (best_line (best_params_ results) +:+ nl) :: lines
     /\ length lines = n)
  /\ print_results results out
     = print_results
         {| best_params_ := best_params_ results;
            cv_results_ := {| mean_test_score := take n means;
                              std_test_score := take n stds;
                              params := take n ps |} |} out.
Proof.
  intros means stds ps n. split.
  - exists (written <$> trials results).
    split; [apply print_results_writes |].
    rewrite length_fmap. apply zip_length.
  - rewrite !print_results_writes. simpl. do 3 f_equal.
    subst n. fold means stds ps. clearbody means stds ps. clear results.
    revert stds ps. induction means as [| m means IH];
      intros [| s stds] [| p ps]; simpl; try reflexivity.
    f_equal. apply IH.
Qed.

(** C5 (first-seen wins).  In the result of a search whose mean scores
    are numbers, the best configuration stands at a position that holds
    the maximal mean, and no earlier position holds a mean that reaches
    it: among the configurations that share the maximum, the first in
    enumeration order is selected. *)
Theorem first_seen_wins (grid : param_grid) (results : GridSearchCV) :
  fit cv_score grid = Some results ->
  Forall (fun x => F64.is_nan x = false)
         (mean_test_score (cv_results_ results)) ->
  exists (i : nat) (m : float64),
    params (cv_results_ results) !! i = Some (best_params_ results)
    /\ mean_test_score (cv_results_ results) !! i = Some m
    /\ (forall (j : nat) (mj : float64),
          mean_test_score (cv_results_ results) !! j = Some mj ->
          F64.leb mj m = true)
    /\ forall (j : nat) (mj : float64),
         mean_test_score (cv_results_ results) !! j = Some mj ->
         F64.leb m mj = true ->
         i <= j.
Proof.
  intros Hfit Hnum.
  destruct (fit_Some _ _ _ Hfit) as (_ & _ & _ & i & Hi & Hbest).
  destruct (argmax_first_max _ _ Hnum Hi) as (m & Hmi & Hmax & Hfirst).
  exists i, m. split; [exact Hbest |]. split; [exact Hmi |].
  split; [exact Hmax |]. intros j mj Hj Hge.
  destruct (decide (i <= j)) as [| Hlt]; [assumption | exfalso].
  assert (Hji : j < i) by lia.
  pose proof (Hfirst j mj Hji Hj) as Hstrict.
  rewrite F64Facts.ltb_leb in Hstrict.
  - rewrite Hge in Hstrict. discriminate.
  - eapply Forall_lookup_1 in Hnum; [exact Hnum | exact Hj].
  - eapply Forall_lookup_1 in Hnum; [exact Hnum | exact Hmi].
Qed.

End SearchReport.

(** ** [print_results] and the output before it *)

Section ReportFacts.

Variable round : float64 -> Z -> float64.
Variable str_float : float64 -> string.

Local Abbreviation print_results' := (print_results round str_float).
Local Abbreviation line_of := (fun t : float64 * float64 * dict =>
  trial_line round str_float t.1.1 t.1.2 t.2 +:+ nl).

(** X1.  [print_results] only appends: what was on standard output stays
    in front, unchanged, and what is added does not depend on it.  Two
    reports in a row are the two reports one after the other. *)
Theorem print_results_appends (r1 r2 : GridSearchCV) (out : stdout) :
  print_results' r1 out = out ++ print_results' r1 []
  /\ print_results' r2 (print_results' r1 out)
     = out ++ print_results' r1 [] ++ print_results' r2 [].
Proof.
  assert (H : forall r o, print_results' r o = o ++ print_results' r []).
  { intros r o. rewrite (print_results_writes round str_float r o),
      (print_results_writes round str_float r []). reflexivity. }
  split; [apply H |].
  rewrite (H r2), (H r1 out), <- app_assoc. reflexivity.
Qed.

Lemma drop_header (out : stdout) (header : string) (lines : list string) :
  drop (S (length out)) (out ++ header :: lines) = lines.
Proof.
  rewrite cons_middle, app_assoc. apply drop_app_length'.
  rewrite length_app. simpl. lia.
Qed.

(** X2.  The header and the table do not look at each other:
    [print_results] writes [best_params_] as it finds it, also when no
    trial line has that configuration, and the trial lines are the same
    whatever [best_params_] is. *)
Theorem header_and_table_independent (results : GridSearchCV)
  (best : dict) (table : cv_results) (out : stdout) :
  drop (S (length out))
       (print_results' {| best_params_ := best;
                          cv_results_ := cv_results_ results |} out)
  = drop (S (length out)) (print_results' results out)
  /\ print_results' {| best_params_ := best_params_ results;
                       cv_results_ := table |} out !! length out
     = print_results' results out !! length out
  /\ print_results' {| best_params_ := best; cv_results_ := table |} out
       !! length out
     = Some (best_line str_float best +:+ nl).
Proof.
  rewrite !(print_results_writes round str_float). cbn [best_params_ cv_results_].
  rewrite !drop_header, !lookup_app_r, Nat.sub_diag by lia.
  repeat split.
Qed.

(** X3.  A trial line depends on the entries of its own position only.
    After the entries at position [j] of the three columns are replaced,
    the number of lines is the same, every line at another position is
    the same, and the line at [j], when there is one, is the line of the
    new entries. *)
Theorem print_results_local (results : GridSearchCV) (j : nat)
  (mean std : float64) (p : dict) (out : stdout) :
  let results' :=
    {| best_params_ := best_params_ results;
       cv_results_ :=
         {| mean_test_score := <[j := mean]> (mean_test_score (cv_results_ results));
            std_test_score := <[j := std]> (std_test_score (cv_results_ results));
            params := <[j := p]> (params (cv_results_ results)) |} |} in
  length (print_results' results' out) = length (print_results' results out)
  /\ (forall i : nat,
        i <> length out + S j ->
        print_results' results' out !! i = print_results' results out !! i)
  /\ (is_Some (print_results' results out !! (length out + S j)) ->
      print_results' results' out !! (length out + S j)
      = Some (trial_line round str_float mean std p +:+ nl)).
Proof.
  intros results'.
  set (means := mean_test_score (cv_results_ results)).
  set (stds := std_test_score (cv_results_ results)).
  set (ps := params (cv_results_ results)).
  assert (Hzip : zip (<[j := mean]> means) (<[j := std]> stds) (<[j := p]> ps)
                 = <[j := (mean, std, p)]> (zip means stds ps)).
  { clearbody means stds ps. clear. revert stds ps j.
    induction means as [| m means IH]; intros [| s stds] [| q ps] [| j];
      simpl; try reflexivity.
    f_equal. apply IH. }
  rewrite !(print_results_writes round str_float).
  subst results'. cbn [best_params_ cv_results_ mean_test_score
                       std_test_score params].
  fold means stds ps. rewrite Hzip, list_fmap_insert.
  split; [| split].
  - rewrite !length_app. cbn [length]. rewrite length_insert. reflexivity.
  - intros i Hi. destruct (decide (i < length out)) as [Hlt | Hge].
    + rewrite !lookup_app_l by exact Hlt. reflexivity.
    + rewrite !lookup_app_r by lia.
      destruct (i - length out) as [| k] eqn:Hk; [reflexivity |].
      cbn [lookup list_lookup]. apply list_lookup_insert_ne. lia.
  - rewrite !lookup_app_r by lia.
    replace (length out + S j - length out) with (S j) by lia.
    cbn [lookup list_lookup]. intros Hsome.
    apply list_lookup_insert_eq. apply lookup_lt_is_Some. exact Hsome.
Qed.

Lemma newlines_app (a b : string) :
  newlines (a +:+ b) = newlines a + newlines b.
Proof.
  induction a as [| c a IH]; [reflexivity |].
  change (newlines (String c (a +:+ b))
          = newlines (String c a) + newlines b).
  cbn [newlines]. rewrite IH. lia.
Qed.

(** X4.  When neither the text of the best configuration nor a trial
    line contains a newline of its own, [print_results] puts exactly
    [N + 2] lines on standard output for [N] trials: the header, an
    empty line, and one line per trial. *)
Theorem print_results_text_lines (results : GridSearchCV) :
  newlines (str_dict str_float (best_params_ results)) = 0 ->
  Forall (fun t : float64 * float64 * dict =>
            newlines (trial_line round str_float t.1.1 t.1.2 t.2) = 0)
         (zip (mean_test_score (cv_results_ results))
              (std_test_score (cv_results_ results))
              (params (cv_results_ results))) ->
  lines_written (print_results' results [])
  = length (zip (mean_test_score (cv_results_ results))
                (std_test_score (cv_results_ results))
                (params (cv_results_ results))) + 2.
Proof.
  intros Hbest Hlines. rewrite (print_results_writes round str_float).
  unfold lines_written. cbn [app fmap list_fmap sum_list sum_list_with].
  unfold best_line. rewrite !newlines_app, Hbest.
  change (newlines nl) with 1. change (newlines "Best params: ") with 0.
  induction Hlines as [| t trials Ht _ IH]; [reflexivity |].
  cbn [fmap list_fmap sum_list sum_list_with length] in *.
  rewrite newlines_app, Ht. change (newlines nl) with 1.
  unfold id in *. lia.
Qed.

End ReportFacts.

(** ** The band [std * 2] *)

Lemma shr_shift51 (m : positive) :
  SpecFloat.iter_pos shr_1 51
    {| shr_m := Z.pos (Pos.iter xO m 52); shr_r := false; shr_s := false |}
  = {| shr_m := Z.pos m~0; shr_r := false; shr_s := false |}.
Proof. reflexivity. Qed.

Lemma digits_shift52 (m : positive) :
  Z.pos (digits2_pos (Pos.iter xO m 52)) = (Z.pos (digits2_pos m) + 52)%Z.
Proof. cbn [Pos.iter digits2_pos]. lia. Qed.

Lemma mul_two_subnormal (s : bool) (m : positive) :
  (Z.pos (digits2_pos m) <= 52)%Z ->
  F64.mul (S754_finite s m (-1074)) (F64.of_int 2)
  = S754_finite s m~0 (-1074).
Proof.
  intros Hm.
  assert (Hfirst :
    (fexp 53 1024 (Z.pos (digits2_pos (Pos.iter xO m 52)) + (-1074 + -51))
     - (-1074 + -51) = 51)%Z).
  { rewrite digits_shift52. unfold fexp, emin. lia. }
  assert (Hsecond :
    (fexp 53 1024 (Z.pos (digits2_pos m~0) + (-1074 + -51 + 51))
     - (-1074 + -51 + 51) = 0)%Z).
  { cbn [digits2_pos]. unfold fexp, emin. lia. }
  change (F64.of_int 2) with (S754_finite false 4503599627370496 (-51)).
  unfold F64.mul, F64.prec, F64.emax, SFmul.
  rewrite xorb_false_r, F64Facts.mantissa_shift52.
  unfold binary_round_aux, shr_fexp, Zdigits2.
  rewrite Hfirst.
  cbn [shr shr_record_of_loc]. rewrite shr_shift51.
  cbn [shr_m loc_of_shr_record round_nearest_even].
  rewrite Hsecond.
  cbn [shr shr_record_of_loc shr_m]. reflexivity.
Qed.

(** X5.  The band is exact.  For every finite [float64] below the last
    binade, normal or subnormal, [std * 2] is a finite [float64] whose
    value is twice the value of [std]: the multiplication rounds
    nothing away before [round] is applied. *)
Theorem band_exact (s : bool) (m : positive) (e : Z) :
  valid_binary F64.prec F64.emax (S754_finite s m e) = true ->
  (e <= 970)%Z ->
  exists (m' : positive) (e' : Z),
    F64.mul (S754_finite s m e) (F64.of_int 2) = S754_finite s m' e'
    /\ valid_binary F64.prec F64.emax (S754_finite s m' e') = true
    /\ (Z.pos m' * 2 ^ (e' + 1074) = 2 * (Z.pos m * 2 ^ (e + 1074)))%Z.
Proof.
  unfold valid_binary, bounded, canonical_mantissa, fexp, emin,
    F64.prec, F64.emax.
  intros Hvalid He.
  apply andb_true_iff in Hvalid as [Hcanon _].
  apply Z.eqb_eq in Hcanon.
  destruct (decide (digits2_pos m = 53%positive)) as [Hnormal | Hsub].
  - exists m, (e + 1)%Z.
    assert (Hlow : (-1074 <= e)%Z) by lia.
    split; [apply F64Facts.mul_two_normal; [exact Hnormal | lia] |].
    split.
    + rewrite Hnormal. apply andb_true_iff. split.
      * apply Z.eqb_eq. lia.
      * apply Z.leb_le. lia.
    + replace (e + 1 + 1074)%Z with (Z.succ (e + 1074)) by lia.
      rewrite Z.pow_succ_r by lia. lia.
  - assert (Hd : (Z.pos (digits2_pos m) <> 53)%Z) by congruence.
    assert (e = (-1074)%Z) as -> by lia.
    assert (Hm : (Z.pos (digits2_pos m) <= 52)%Z) by lia.
    exists (m~0)%positive, (-1074)%Z.
    split; [apply mul_two_subnormal; exact Hm |].
    split.
    + cbn [digits2_pos]. apply andb_true_iff. split.
      * apply Z.eqb_eq. lia.
      * reflexivity.
    + change (-1074 + 1074)%Z with 0%Z. lia.
Qed.

(** X6.  The edges of the band.  NaN, the infinities and the zeros pass
    through [std * 2] with their sign, and a [float64] of the last
    binade doubles to the infinity of its sign. *)
Theorem band_edges :
  F64.mul S754_nan (F64.of_int 2) = S754_nan
  /\ (forall s : bool,
        F64.mul (S754_infinity s) (F64.of_int 2) = S754_infinity s)
  /\ (forall s : bool, F64.mul (S754_zero s) (F64.of_int 2) = S754_zero s)
  /\ forall (s : bool) (m : positive),
       digits2_pos m = 53%positive ->
       F64.mul (S754_finite s m 971) (F64.of_int 2) = S754_infinity s.
Proof.
  split; [reflexivity |].
  split; [intros []; reflexivity |].
  split; [intros []; reflexivity |].
  intros s m Hm.
  assert (Hdigits : digits2_pos (Pos.iter xO m 52) = 105%positive).
  { cbn [Pos.iter digits2_pos]. rewrite Hm. reflexivity. }
  change (F64.of_int 2) with (S754_finite false 4503599627370496 (-51)).
  unfold F64.mul, F64.prec, F64.emax, SFmul.
  rewrite xorb_false_r, F64Facts.mantissa_shift52.
  unfold binary_round_aux, shr_fexp, Zdigits2.
  rewrite Hdigits.
  change (fexp 53 1024 (Z.pos 105 + (971 + -51)) - (971 + -51))%Z with 52%Z.
  cbn [shr shr_record_of_loc]. rewrite F64Facts.shr_shift52.
  cbn [shr_m loc_of_shr_record round_nearest_even].
  rewrite Hm. reflexivity.
Qed.

(** ** The lines of the report *)

Lemma append_nil_r (s : string) : s +:+ "" = s.
Proof.
  induction s as [| c s IH]; [reflexivity |].
  change (String c (s +:+ "") = String c s). f_equal. exact IH.
Qed.

Lemma text_app (out1 out2 : stdout) :
  text (out1 ++ out2) = text out1 +:+ text out2.
Proof.
  unfold text. induction out1 as [| s out1 IH]; [reflexivity |].
  cbn [app foldr]. rewrite IH. symmetry. apply append_assoc.
Qed.

(** A line without a newline of its own, followed by a newline, is read
    as one line. *)
Lemma splitlines_from_line (a rest : string) :
  forall cur : string,
    newlines a = 0 ->
    splitlines_from cur (a +:+ nl +:+ rest)
    = (cur +:+ a) :: splitlines_from "" rest.
Proof.
  induction a as [| c a IH]; intros cur Ha.
  - rewrite append_nil_r. reflexivity.
  - cbn [newlines] in Ha.
    change (String c a +:+ nl +:+ rest) with (String c (a +:+ nl +:+ rest)).
    cbn [splitlines_from].
    destruct (Ascii.eqb c "010"%char); [discriminate |].
    rewrite IH by exact Ha. rewrite append_assoc. reflexivity.
Qed.

Lemma splitlines_lines (ls : list string) :
  Forall (fun a => newlines a = 0) ls ->
  splitlines (text ((fun a => a +:+ nl) <$> ls)) = ls.
Proof.
  unfold splitlines. induction 1 as [| a ls Ha _ IH]; [reflexivity |].
  cbn [fmap list_fmap text foldr] in *.
  rewrite append_assoc, splitlines_from_line by exact Ha.
  f_equal. exact IH.
Qed.

Section ReportText.

Variable round : float64 -> Z -> float64.
Variable str_float : float64 -> string.

(** C2 (line count).  For the result of a search over a grid that
    enumerates [N] configurations, that is, with [N] entries in each of
    the three columns, and when no rendered number or configuration holds
    a newline of its own, the text that [print_results] adds to standard
    output reads, line by line: the line [Best params: ] followed by the
    text of the best configuration, an empty line, and then exactly [N]
    trial lines, the one of each entry in turn.  The header is the only
    line in front of the trial lines that states a configuration.  For
    the result recorded in [Random forests], with its 18 configurations,
    these are the 20 lines that the notebook shows. *)
Theorem print_results_line_count :
  (forall (results : GridSearchCV) (N : nat) (out : stdout),
     length (mean_test_score (cv_results_ results)) = N ->
     length (std_test_score (cv_results_ results)) = N ->
     length (params (cv_results_ results)) = N ->
     newlines (str_dict str_float (best_params_ results)) = 0 ->
     Forall (fun t : float64 * float64 * dict =>
               newlines (str_float (round t.1.1 3) +:+ " (+/-"
                         +:+ str_float (round (F64.mul t.1.2 (F64.of_int 2)) 3)
                         +:+ ") for " +:+ str_dict str_float t.2) = 0)
            (zip (mean_test_score (cv_results_ results))
                 (std_test_score (cv_results_ results))
                 (params (cv_results_ results))) ->
     exists trial_lines : list string,
       splitlines (text (drop (length out)
                              (print_results round str_float results out)))
       = ("Best params: " +:+ str_dict str_float (best_params_ results))
           :: "" :: trial_lines
       /\ trial_lines
          = (fun t : float64 * float64 * dict =>
               str_float (round t.1.1 3) +:+ " (+/-"
               +:+ str_float (round (F64.mul t.1.2 (F64.of_int 2)) 3)
               +:+ ") for " +:+ str_dict str_float t.2)
            <$> zip (mean_test_score (cv_results_ results))
                    (std_test_score (cv_results_ results))
                    (params (cv_results_ results))
       /\ length trial_lines = N)
  /\ splitlines (text (print_results Np.round Py.str_float rf_recorded []))
     = ["Best params: {'max_depth': 4, 'n_estimators': 250}";
        "";
        "0.805 (+/-0.146) for {'max_depth': 2, 'n_estimators': 5}";
        "0.811 (+/-0.082) for {'max_depth': 2, 'n_estimators': 50}";
        "0.802 (+/-0.131) for {'max_depth': 2, 'n_estimators': 250}";
        "0.805 (+/-0.069) for {'max_depth': 4, 'n_estimators': 5}";
        "0.817 (+/-0.083) for {'max_depth': 4, 'n_estimators': 50}";
        "0.826 (+/-0.104) for {'max_depth': 4, 'n_estimators': 250}";
        "0.82 (+/-0.044) for {'max_depth': 8, 'n_estimators': 5}";
        "0.817 (+/-0.058) for {'max_depth': 8, 'n_estimators': 50}";
        "0.818 (+/-0.065) for {'max_depth': 8, 'n_estimators': 250}";
        "0.805 (+/-0.044) for {'max_depth': 16, 'n_estimators': 5}";
        "0.813 (+/-0.016) for {'max_depth': 16, 'n_estimators': 50}";
        "0.809 (+/-0.034) for {'max_depth': 16, 'n_estimators': 250}";
        "0.8 (+/-0.093) for {'max_depth': 32, 'n_estimators': 5}";
        "0.815 (+/-0.046) for {'max_depth': 32, 'n_estimators': 50}";
        "0.811 (+/-0.021) for {'max_depth': 32, 'n_estimators': 250}";
        "0.815 (+/-0.037) for {'max_depth': None, 'n_estimators': 5}";
        "0.815 (+/-0.038) for {'max_depth': None, 'n_estimators': 50}";
        "0.809 (+/-0.025) for {'max_depth': None, 'n_estimators': 250}"].
Proof.
  split; [| vm_compute; reflexivity].
  intros results N out Hm Hs Hp Hbest Hlines.
  pose (shown := fun t : float64 * float64 * dict =>
          str_float (round t.1.1 3) +:+ " (+/-"
          +:+ str_float (round (F64.mul t.1.2 (F64.of_int 2)) 3)
          +:+ ") for " +:+ str_dict str_float t.2).
  set (trials := zip _ _ _) in Hlines.
  change (Forall (fun t => newlines (shown t) = 0) trials) in Hlines.
  exists (shown <$> trials).
  split; [| split; [reflexivity |]].
  - rewrite print_results_writes, drop_app_length. fold trials.
    rewrite <- (splitlines_lines
                  (("Best params: " +:+ str_dict str_float (best_params_ results))
                     :: "" :: (shown <$> trials))).
    + f_equal. cbn [fmap list_fmap text foldr]. unfold best_line.
      rewrite <- list_fmap_compose, !append_assoc. reflexivity.
    + constructor.
      * rewrite newlines_app, Hbest. reflexivity.
      * constructor; [reflexivity |].
        apply Forall_fmap. exact Hlines.
  - rewrite length_fmap. unfold trials. rewrite zip_length. lia.
Qed.

(** C4 (enumeration order).  The trial line at position [i] shows the
    configuration at position [i] of the enumeration, after the rounded
    mean and band of that position, whatever the scores.  The table is
    therefore not ranked: in the report of the result recorded in [Random
    forests] the configuration of the header is on the sixth trial line,
    not on the first, and the second trial line shows a greater mean than
    the first. *)
Theorem trial_lines_in_enumeration_order :
  (forall (results : GridSearchCV) (out : stdout) (i : nat) (p : dict),
     i < length (zip (mean_test_score (cv_results_ results))
                     (std_test_score (cv_results_ results))
                     (params (cv_results_ results))) ->
     params (cv_results_ results) !! i = Some p ->
     exists m s : float64,
       mean_test_score (cv_results_ results) !! i = Some m
       /\ std_test_score (cv_results_ results) !! i = Some s
       /\ print_results round str_float results out !! (length out + S i)
          = Some ((str_float (round m 3) +:+ " (+/-"
                   +:+ str_float (round (F64.mul s (F64.of_int 2)) 3)
                   +:+ ") for " +:+ str_dict str_float p) +:+ nl))
  /\ (print_results Np.round Py.str_float rf_recorded [] !! 0
      = Some ("Best params: {'max_depth': 4, 'n_estimators': 250}"
              +:+ nl +:+ nl)
      /\ print_results Np.round Py.str_float rf_recorded [] !! 1
         = Some ("0.805 (+/-0.146) for {'max_depth': 2, 'n_estimators': 5}"
                 +:+ nl)
      /\ print_results Np.round Py.str_float rf_recorded [] !! 2
         = Some ("0.811 (+/-0.082) for {'max_depth': 2, 'n_estimators': 50}"
                 +:+ nl)
      /\ print_results Np.round Py.str_float rf_recorded [] !! 6
         = Some ("0.826 (+/-0.104) for {'max_depth': 4, 'n_estimators': 250}"
                 +:+ nl)).
Proof.
  split.
  - intros results out i p Hi Hp.
    destruct (lookup_lt_is_Some_2 _ _ Hi) as [[[m s] p'] Ht].
    pose proof Ht as Hz. apply zip_lookup in Hz as (Hm & Hs & Hp').
    assert (p' = p) as -> by congruence.
    exists m, s. split; [exact Hm |]. split; [exact Hs |].
    rewrite print_results_trial, Ht. reflexivity.
  - split; [vm_compute; reflexivity |]. split; [vm_compute; reflexivity |].
    split; vm_compute; reflexivity.
Qed.

End ReportText.

(** ** The rounding of the trial lines *)







(** ** A run of a notebook *)

Section SessionFacts.
Import Session.

Variable frame : Type.
Variable array : Type.
Variable estimator : Type.
Variable import_error : option exn.
Variable parse_csv : list Byte.byte -> result frame.
Variable values_ravel : frame -> array.
Variable str_default : string -> string.
Variable repr_estimator : estimator -> string.
Variable dumps : estimator -> list Byte.byte.
Variable dump_error :
  estimator -> string -> option (exn * option (list Byte.byte)).
Variable round : float64 -> Z -> float64.
Variable str_float : float64 -> string.

Local Abbreviation run :=
  (run_all frame array estimator import_error parse_csv values_ravel
           str_default repr_estimator dumps dump_error round str_float).
Local Abbreviation read := (read_csv frame parse_csv).

(** The state after the cells 2 to 6 of a run whose search has fitted. *)
Local Abbreviation reported :=
  (fun (classifier regressor : string) (cv : GridSearchCV)
       (best : estimator) (s : state) =>
     {| printed := printed s
                   ++ [str_default classifier +:+ nl;
                       str_default regressor +:+ nl]
                   ++ print_results round str_float cv [];
        displayed := displayed s ++ [repr_estimator best];
        disk := disk s |}).

Lemma read_csv_exploring (classifier regressor path : string) (s : state) :
  read path (exploring str_default classifier regressor s) = read path s.
Proof. reflexivity. Qed.

(** [read_csv] looks at the file of its path only. *)
Lemma read_csv_disk (path : string) (s s' : state) :
  disk s' !! path = disk s !! path -> read path s' = read path s.
Proof. unfold read_csv. intros ->. reflexivity. Qed.

(** Up to the cell that writes the model: when the imports succeed, the
    tables load and the search fits, the run comes to cell 7 with the
    report printed and the best estimator displayed. *)
Lemma run_to_writing
  (search : string -> param_grid -> frame -> array
            -> result (GridSearchCV * estimator))
  (classifier regressor : string) (parameters : param_grid) (path : string)
  (s : state) (X y : frame) (cv : GridSearchCV) (best : estimator) :
  import_error = None ->
  read train_features s = Ok X ->
  read train_labels s = Ok y ->
  search classifier parameters X (values_ravel y) = Ok (cv, best) ->
  run search classifier regressor parameters path s
  = writing estimator dumps dump_error path (cv, best)
      (reported classifier regressor cv best s).
Proof.
  intros Himport HX Hy Hcv. unfold run_all, loading. rewrite Himport.
  rewrite !(read_csv_exploring classifier regressor), HX, Hy.
  unfold tuning. rewrite Hcv. f_equal.
  unfold showing, exploring. cbn [printed displayed disk fst snd]. f_equal.
  rewrite (print_results_writes round str_float cv (print _ _)),
    (print_results_writes round str_float cv []).
  unfold print. rewrite <- !app_assoc. reflexivity.
Qed.

(** A run goes one of five ways. *)
Lemma run_cases
  (search : string -> param_grid -> frame -> array
            -> result (GridSearchCV * estimator))
  (classifier regressor : string) (parameters : param_grid) (path : string)
  (s : state) :
  let s0 := exploring str_default classifier regressor s in
  (exists e : exn,
     import_error = Some e
     /\ run search classifier regressor parameters path s = (s, Raise e))
  \/ (exists e : exn,
        import_error = None
        /\ read train_features s = Raise e
        /\ run search classifier regressor parameters path s = (s0, Raise e))
  \/ (exists (X : frame) (e : exn),
        import_error = None
        /\ read train_features s = Ok X
        /\ read train_labels s = Raise e
        /\ run search classifier regressor parameters path s = (s0, Raise e))
  \/ (exists (X y : frame) (e : exn),
        import_error = None
        /\ read train_features s = Ok X
        /\ read train_labels s = Ok y
        /\ search classifier parameters X (values_ravel y) = Raise e
        /\ run search classifier regressor parameters path s
           = (s0, Raise e))
  \/ (exists (X y : frame) (cv : GridSearchCV) (best : estimator),
        import_error = None
        /\ read train_features s = Ok X
        /\ read train_labels s = Ok y
        /\ search classifier parameters X (values_ravel y) = Ok (cv, best)
        /\ run search classifier regressor parameters path s
           = writing estimator dumps dump_error path (cv, best)
               (reported classifier regressor cv best s)).
Proof.
  intros s0.
  assert (Himports : (exists e : exn, import_error = Some e)
                     \/ import_error = None).
  { destruct import_error; eauto. }
  destruct Himports as [[e Himport] | Himport].
  { left. exists e. split; [exact Himport |].
    unfold run_all. rewrite Himport. reflexivity. }
  right.
  destruct (read train_features s) as [X | e] eqn:HX.
  2: { left. exists e. split; [exact Himport |]. split; [reflexivity |].
       unfold run_all, loading. rewrite Himport.
       rewrite !(read_csv_exploring classifier regressor), HX.
       reflexivity. }
  right.
  destruct (read train_labels s) as [y | e] eqn:Hy.
  2: { left. exists X, e. split; [exact Himport |]. split; [reflexivity |].
       split; [reflexivity |].
       unfold run_all, loading. rewrite Himport.
       rewrite !(read_csv_exploring classifier regressor), HX, Hy.
       reflexivity. }
  right.
  destruct (search classifier parameters X (values_ravel y))
    as [[cv best] | e] eqn:Hcv.
  2: { left. exists X, y, e. split; [exact Himport |]. split; [reflexivity |].
       split; [reflexivity |]. split; [exact Hcv |].
       unfold run_all, loading. rewrite Himport.
       rewrite !(read_csv_exploring classifier regressor), HX, Hy.
       unfold tuning. rewrite Hcv. reflexivity. }
  right. exists X, y, cv, best.
  split; [exact Himport |]. split; [reflexivity |]. split; [reflexivity |].
  split; [exact Hcv |].
  exact (run_to_writing search classifier regressor parameters path s
           X y cv best Himport HX Hy Hcv).
Qed.

(** The cell that writes the model goes one of three ways. *)
Lemma writing_cases (path : string) (cv : GridSearchCV) (best : estimator)
  (s : state) :
  (dump_error best path = None
   /\ writing estimator dumps dump_error path (cv, best) s
      = ({| printed := printed s;
            displayed := displayed s ++ [repr_list [path]];
            disk := <[path := dumps best]> (disk s) |}, Ok tt))
  \/ (exists e : exn,
        dump_error best path = Some (e, None)
        /\ writing estimator dumps dump_error path (cv, best) s
           = ({| printed := printed s; displayed := displayed s;
                 disk := disk s |}, Raise e))
  \/ (exists (e : exn) (bytes : list Byte.byte),
        dump_error best path = Some (e, Some bytes)
        /\ writing estimator dumps dump_error path (cv, best) s
           = ({| printed := printed s; displayed := displayed s;
                 disk := <[path := bytes]> (disk s) |}, Raise e)).
Proof.
  unfold writing, joblib_dump. cbn [snd].
  destruct (dump_error best path) as [[e [bytes |]] |]; eauto 10.
Qed.

Lemma run_ok
  (search : string -> param_grid -> frame -> array
            -> result (GridSearchCV * estimator))
  (classifier regressor : string) (parameters : param_grid) (path : string)
  (s s' : state) :
  run search classifier regressor parameters path s = (s', Ok tt) ->
  exists (X y : frame) (cv : GridSearchCV) (best : estimator),
    import_error = None
    /\ read train_features s = Ok X
    /\ read train_labels s = Ok y
    /\ search classifier parameters X (values_ravel y) = Ok (cv, best)
    /\ dump_error best path = None
    /\ s' = {| printed := printed s
                          ++ [str_default classifier +:+ nl;
                              str_default regressor +:+ nl]
                          ++ print_results round str_float cv [];
               displayed := displayed s
                            ++ [repr_estimator best; repr_list [path]];
               disk := <[path := dumps best]> (disk s) |}.
Proof.
  intros Hrun.
  destruct (run_cases search classifier regressor parameters path s)
    as [(e & _ & H) | [(e & _ & _ & H) | [(X & e & _ & _ & _ & H)
        | [(X & y & e & _ & _ & _ & _ & H)
          | (X & y & cv & best & Himport & HX & Hy & Hcv & H)]]]];
    rewrite H in Hrun; try discriminate.
  destruct (writing_cases path cv best
              (reported classifier regressor cv best s))
    as [[Hdump Hw] | [(e & _ & Hw) | (e & bytes & _ & Hw)]];
    rewrite Hw in Hrun; try discriminate.
  injection Hrun as <-. exists X, y, cv, best.
  cbn [printed displayed disk]. rewrite <- app_assoc. auto 10.
Qed.

Lemma run_ok_inv
  (search : string -> param_grid -> frame -> array
            -> result (GridSearchCV * estimator))
  (classifier regressor : string) (parameters : param_grid) (path : string)
  (s : state) (X y : frame) (cv : GridSearchCV) (best : estimator) :
  import_error = None ->
  read train_features s = Ok X ->
  read train_labels s = Ok y ->
  search classifier parameters X (values_ravel y) = Ok (cv, best) ->
  dump_error best path = None ->
  run search classifier regressor parameters path s
  = ({| printed := printed s
                   ++ [str_default classifier +:+ nl;
                       str_default regressor +:+ nl]
                   ++ print_results round str_float cv [];
        displayed := displayed s
                     ++ [repr_estimator best; repr_list [path]];
        disk := <[path := dumps best]> (disk s) |}, Ok tt).
Proof.
  intros Himport HX Hy Hcv Hdump.
  rewrite (run_to_writing search classifier regressor parameters path s
             X y cv best Himport HX Hy Hcv).
  unfold writing, joblib_dump. cbn [snd]. rewrite Hdump.
  cbn [printed displayed disk]. rewrite <- app_assoc. reflexivity.
Qed.

(** X7.  When the model cannot be written, the run ends at cell 7 with
    the exception of [joblib.dump], after the report has been printed and
    the best estimator displayed: the search is lost, its report is not.
    No other file changes, and the file of the model is as before or
    holds what the failure has left. *)
Theorem run_all_dump_failure
  (search : string -> param_grid -> frame -> array
            -> result (GridSearchCV * estimator))
  (classifier regressor : string) (parameters : param_grid) (path : string)
  (s : state) (X y : frame) (cv : GridSearchCV) (best : estimator)
  (e : exn) (left : option (list Byte.byte)) :
  import_error = None ->
  read train_features s = Ok X ->
  read train_labels s = Ok y ->
  search classifier parameters X (values_ravel y) = Ok (cv, best) ->
  dump_error best path = Some (e, left) ->
  exists s' : state,
    run search classifier regressor parameters path s = (s', Raise e)
    /\ printed s' = printed s
                    ++ [str_default classifier +:+ nl;
                        str_default regressor +:+ nl]
                    ++ print_results round str_float cv []
    /\ displayed s' = displayed s ++ [repr_estimator best]
    /\ (forall other : string,
          other <> path -> disk s' !! other = disk s !! other)
    /\ disk s' !! path = match left with
                         | Some bytes => Some bytes
                         | None => disk s !! path
                         end.
Proof.
  intros Himport HX Hy Hcv Hdump.
  rewrite (run_to_writing search classifier regressor parameters path s
             X y cv best Himport HX Hy Hcv).
  unfold writing, joblib_dump. cbn [snd]. rewrite Hdump.
  destruct left as [bytes |]; eexists; (split; [reflexivity |]);
    cbn [printed displayed disk].
  - split; [reflexivity |]. split; [reflexivity |]. split.
    + intros other Hother. apply lookup_insert_ne. auto.
    + apply lookup_insert_eq.
  - auto.
Qed.

(** X8.  When the imports succeed and the features file is missing, the
    run stops at the loading cell with [FileNotFoundError] for that file,
    whatever the labels file and the search would do: only the two texts
    of cell 2 are printed, nothing is displayed and no file changes.
    When the features file loads and the labels file is missing, the run
    stops in the same way with [FileNotFoundError] for the labels file. *)
Theorem run_all_missing_file
  (search : string -> param_grid -> frame -> array
            -> result (GridSearchCV * estimator))
  (classifier regressor : string) (parameters : param_grid) (path : string)
  (s : state) :
  import_error = None ->
  (disk s !! train_features = None ->
   run search classifier regressor parameters path s
   = ({| printed := printed s ++ [str_default classifier +:+ nl;
                                  str_default regressor +:+ nl];
         displayed := displayed s;
         disk := disk s |}, Raise (FileNotFoundError train_features)))
  /\ (forall X : frame,
        read train_features s = Ok X ->
        disk s !! train_labels = None ->
        run search classifier regressor parameters path s
        = ({| printed := printed s ++ [str_default classifier +:+ nl;
                                       str_default regressor +:+ nl];
              displayed := displayed s;
              disk := disk s |}, Raise (FileNotFoundError train_labels))).
Proof.
  intros Himport.
  assert (Hs0 : exploring str_default classifier regressor s
                = {| printed := printed s ++ [str_default classifier +:+ nl;
                                              str_default regressor +:+ nl];
                     displayed := displayed s;
                     disk := disk s |}).
  { unfold exploring, print. rewrite <- app_assoc. reflexivity. }
  split.
  - intros Hnone. unfold run_all, loading. rewrite Himport.
    rewrite !(read_csv_exploring classifier regressor).
    unfold read_csv at 1. rewrite Hnone, Hs0. reflexivity.
  - intros X HX Hnone. unfold run_all, loading. rewrite Himport.
    rewrite !(read_csv_exploring classifier regressor), HX.
    unfold read_csv at 1. rewrite Hnone, Hs0. reflexivity.
Qed.

(** X9.  A run succeeds exactly when the imports succeed, both tables
    of the training partition load, the search fits and [joblib.dump]
    does not fail.  Standard output then gains the two texts of cell 2
    followed by the report of [print_results], the notebook displays the
    best estimator and then the list with the path, and the file at the
    path holds the serialized best estimator. *)
Theorem run_all_ok_iff
  (search : string -> param_grid -> frame -> array
            -> result (GridSearchCV * estimator))
  (classifier regressor : string) (parameters : param_grid) (path : string)
  (s s' : state) :
  run search classifier regressor parameters path s = (s', Ok tt) <->
  exists (X y : frame) (cv : GridSearchCV) (best : estimator),
    import_error = None
    /\ read train_features s = Ok X
    /\ read train_labels s = Ok y
    /\ search classifier parameters X (values_ravel y) = Ok (cv, best)
    /\ dump_error best path = None
    /\ s' = {| printed := printed s
                          ++ [str_default classifier +:+ nl;
                              str_default regressor +:+ nl]
                          ++ print_results round str_float cv [];
               displayed := displayed s
                            ++ [repr_estimator best; repr_list [path]];
               disk := <[path := dumps best]> (disk s) |}.
Proof.
  split; [apply run_ok |].
  intros (X & y & cv & best & Himport & HX & Hy & Hcv & Hdump & ->).
  apply (run_ok_inv search classifier regressor parameters path s X y cv
           best Himport HX Hy Hcv Hdump).
Qed.

Lemma run_disk_other
  (search : string -> param_grid -> frame -> array
            -> result (GridSearchCV * estimator))
  (classifier regressor : string) (parameters : param_grid)
  (path other : string) (s : state) :
  other <> path ->
  disk (run search classifier regressor parameters path s).1 !! other
  = disk s !! other.
Proof.
  intros Hother.
  destruct (run_cases search classifier regressor parameters path s)
    as [(e & _ & H) | [(e & _ & _ & H) | [(X & e & _ & _ & _ & H)
        | [(X & y & e & _ & _ & _ & _ & H)
          | (X & y & cv & best & _ & _ & _ & _ & H)]]]];
    rewrite H; try reflexivity.
  destruct (writing_cases path cv best
              (reported classifier regressor cv best s))
    as [[_ Hw] | [(e & _ & Hw) | (e & bytes & _ & Hw)]];
    rewrite Hw; cbn [fst disk]; try reflexivity;
    apply lookup_insert_ne; auto.
Qed.

(** X10.  Whatever way a run of [Random forests] or [Boosting] goes, it
    changes neither the files of the training partition nor the model
    file of the other notebook. *)
Theorem notebooks_keep_other_files
  (search : string -> param_grid -> frame -> array
            -> result (GridSearchCV * estimator))
  (s : state) :
  let rf := run_Random_forests frame array estimator import_error parse_csv
              values_ravel str_default repr_estimator dumps dump_error
              round str_float search s in
  let gb := run_Boosting frame array estimator import_error parse_csv
              values_ravel str_default repr_estimator dumps dump_error
              round str_float search s in
  (disk rf.1 !! train_features = disk s !! train_features
   /\ disk rf.1 !! train_labels = disk s !! train_labels
   /\ disk rf.1 !! "./models/Boosting_model.pkl"
      = disk s !! "./models/Boosting_model.pkl")
  /\ (disk gb.1 !! train_features = disk s !! train_features
      /\ disk gb.1 !! train_labels = disk s !! train_labels
      /\ disk gb.1 !! "./models/Random_forest_model.pkl"
         = disk s !! "./models/Random_forest_model.pkl").
Proof.
  intros rf gb. subst rf gb. unfold run_Random_forests, run_Boosting.
  repeat split; apply run_disk_other; discriminate.
Qed.

(** X11.  A rerun replaces the model file without a trace of the earlier
    run.  After a successful run, a second run, whose search may come
    out differently, finds the training partition as it was; when it
    succeeds, the files are exactly those that the second run alone
    would have left. *)
Theorem rerun_replaces
  (search1 search2 : string -> param_grid -> frame -> array
                     -> result (GridSearchCV * estimator))
  (classifier regressor : string) (parameters : param_grid) (path : string)
  (s s1 s2 : state) :
  path <> train_features -> path <> train_labels ->
  run search1 classifier regressor parameters path s = (s1, Ok tt) ->
  run search2 classifier regressor parameters path s1 = (s2, Ok tt) ->
  read train_features s1 = read train_features s
  /\ read train_labels s1 = read train_labels s
  /\ exists s2' : state,
       run search2 classifier regressor parameters path s = (s2', Ok tt)
       /\ disk s2' = disk s2.
Proof.
  intros Hf Hl Hrun1 Hrun2.
  assert (Hdisk : forall other, other <> path ->
            disk s1 !! other = disk s !! other).
  { intros other Hother.
    pose proof (run_disk_other search1 classifier regressor parameters
                  path other s Hother) as H.
    rewrite Hrun1 in H. exact H. }
  assert (HX : read train_features s1 = read train_features s).
  { apply read_csv_disk, Hdisk. auto. }
  assert (Hy : read train_labels s1 = read train_labels s).
  { apply read_csv_disk, Hdisk. auto. }
  split; [exact HX |]. split; [exact Hy |].
  apply run_ok in Hrun1
    as (X1 & y1 & cv1 & best1 & _ & _ & _ & _ & _ & Hs1).
  apply run_ok in Hrun2
    as (X & y & cv & best & Himport & HX2 & Hy2 & Hcv & Hdump & Hs2).
  rewrite HX in HX2. rewrite Hy in Hy2.
  eexists. split.
  - apply (run_ok_inv search2 classifier regressor parameters path s X y
             cv best Himport HX2 Hy2 Hcv Hdump).
  - rewrite Hs2, Hs1. cbn [disk]. rewrite insert_insert_eq. reflexivity.
Qed.

(** *** The five notebooks *)

Variable lr_classes svm_classes mlp_classes : string * string.
Variable lr_grid svm_grid mlp_grid : param_grid.
Variable lr_file svm_file mlp_file : string.

Local Abbreviation classes_of' := (classes_of lr_classes svm_classes mlp_classes).
Local Abbreviation grid_of' := (grid_of lr_grid svm_grid mlp_grid).
Local Abbreviation file_of' := (file_of lr_file svm_file mlp_file).
Local Abbreviation run_each' := (fun search =>
  run_each frame array estimator import_error parse_csv values_ravel
           str_default repr_estimator dumps dump_error round str_float
           search lr_classes svm_classes mlp_classes
           lr_grid svm_grid mlp_grid lr_file svm_file mlp_file).
Local Abbreviation train_all' := (fun search =>
  train_all frame array estimator import_error parse_csv values_ravel
            str_default repr_estimator dumps dump_error round str_float
            search lr_classes svm_classes mlp_classes
            lr_grid svm_grid mlp_grid lr_file svm_file mlp_file).

Lemma models_dir_inj (a b : string) :
  models_dir +:+ a = models_dir +:+ b -> a = b.
Proof. unfold models_dir. simpl. intros H. injection H as H. exact H. Qed.

Lemma models_dir_train_features (a : string) :
  train_features <> models_dir +:+ a.
Proof. unfold models_dir, train_features. simpl. discriminate. Qed.

Lemma models_dir_train_labels (a : string) :
  train_labels <> models_dir +:+ a.
Proof. unfold models_dir, train_labels. simpl. discriminate. Qed.

(** Notebooks with distinct file names, run one after the other: when
    all of them run through, each has searched on the training partition
    as it was at the start, the file of each holds its best estimator,
    and no other file has changed. *)
Lemma run_each_persists
  (search : string -> param_grid -> frame -> array
            -> result (GridSearchCV * estimator))
  (fs : list family) :
  forall s s' : state,
    NoDup (file_of' <$> fs) ->
    run_each' search fs s = (s', Ok tt) ->
    (forall f : family,
       f ∈ fs ->
       exists (X y : frame) (cv : GridSearchCV) (best : estimator),
         read train_features s = Ok X
         /\ read train_labels s = Ok y
         /\ search (classes_of' f).1 (grid_of' f) X (values_ravel y)
            = Ok (cv, best)
         /\ disk s' !! (models_dir +:+ file_of' f) = Some (dumps best))
    /\ forall path : string,
         (forall f : family, f ∈ fs -> path <> models_dir +:+ file_of' f) ->
         disk s' !! path = disk s !! path.
Proof.
  induction fs as [| f fs IH]; intros s s' Hnames Hrun.
  - injection Hrun as <-. split; [| reflexivity].
    intros f Hf. apply elem_of_nil in Hf. destruct Hf.
  - cbn [fmap list_fmap] in Hnames. apply NoDup_cons in Hnames as [Hf Hnames].
    cbn [run_each] in Hrun. unfold run_notebook in Hrun.
    destruct (run search (classes_of' f).1 (classes_of' f).2 (grid_of' f)
                  (models_dir +:+ file_of' f) s) as [s1 [[] | e]] eqn:Hrun1;
      [| discriminate].
    destruct (IH s1 s' Hnames Hrun) as [Hfiles Hother].
    assert (Hdisk : forall other, other <> models_dir +:+ file_of' f ->
              disk s1 !! other = disk s !! other).
    { intros other Hne.
      pose proof (run_disk_other search (classes_of' f).1 (classes_of' f).2
                    (grid_of' f) (models_dir +:+ file_of' f) other s Hne)
        as H.
      rewrite Hrun1 in H. exact H. }
    assert (HX : read train_features s1 = read train_features s).
    { apply read_csv_disk, Hdisk, models_dir_train_features. }
    assert (Hy : read train_labels s1 = read train_labels s).
    { apply read_csv_disk, Hdisk, models_dir_train_labels. }
    apply run_ok in Hrun1
      as (X & y & cv & best & _ & HX1 & Hy1 & Hcv & _ & Hs1).
    split.
    + intros g Hg. apply elem_of_cons in Hg as [-> | Hg].
      * exists X, y, cv, best.
        split; [exact HX1 |]. split; [exact Hy1 |]. split; [exact Hcv |].
        rewrite Hother.
        -- rewrite Hs1. cbn [disk]. apply lookup_insert_eq.
        -- intros g Hg Heq. apply models_dir_inj in Heq.
           apply Hf. rewrite Heq. apply list_elem_of_fmap_2. exact Hg.
      * destruct (Hfiles g Hg) as (X' & y' & cv' & best' & HX' & Hy' & Hcv' & H).
        exists X', y', cv', best'.
        rewrite <- HX, <- Hy. auto.
    + intros path Hpath. rewrite Hother.
      * apply Hdisk. apply Hpath. apply list_elem_of_here.
      * intros g Hg. apply Hpath. apply list_elem_of_further. exact Hg.
Qed.

(** When the imports succeed, the training partition loads, and for
    every notebook of the list the search fits and the dump does not
    fail, the notebooks run through one after the other. *)
Lemma run_each_succeeds
  (search : string -> param_grid -> frame -> array
            -> result (GridSearchCV * estimator))
  (X y : frame) (fs : list family) :
  import_error = None ->
  (forall f : family,
     f ∈ fs ->
     exists (cv : GridSearchCV) (best : estimator),
       search (classes_of' f).1 (grid_of' f) X (values_ravel y)
       = Ok (cv, best)
       /\ dump_error best (models_dir +:+ file_of' f) = None) ->
  forall s : state,
    read train_features s = Ok X ->
    read train_labels s = Ok y ->
    exists s' : state, run_each' search fs s = (s', Ok tt).
Proof.
  intros Himport. induction fs as [| f fs IH]; intros Hfs s HX Hy.
  - exists s. reflexivity.
  - destruct (Hfs f (list_elem_of_here f fs)) as (cv & best & Hcv & Hdump).
    cbn [run_each]. unfold run_notebook.
    rewrite (run_ok_inv search (classes_of' f).1 (classes_of' f).2
               (grid_of' f) (models_dir +:+ file_of' f) s X y cv best
               Himport HX Hy Hcv Hdump).
    apply IH.
    + intros g Hg. apply Hfs, list_elem_of_further, Hg.
    + rewrite <- HX. apply read_csv_disk. cbn [disk].
      apply lookup_insert_ne, not_eq_sym, models_dir_train_features.
    + rewrite <- Hy. apply read_csv_disk. cbn [disk].
      apply lookup_insert_ne, not_eq_sym, models_dir_train_labels.
Qed.

(** C6 (training and persistence).  When the imports succeed, the two
    files of the training partition load, the search of every family
    fits on them and its best estimator can be written, and the five file
    names differ, the notebooks of the five families run through one
    after the other, in whatever order they are taken; after them the
    file of every family in the models directory holds the serialized
    best estimator of the search of that family, and no file elsewhere
    has changed. *)
Theorem train_all_persists
  (search : string -> param_grid -> frame -> array
            -> result (GridSearchCV * estimator))
  (fs : list family) (s : state) (X y : frame) :
  fs ≡ₚ [LogisticRegression; SupportVectorMachine; MultiLayerPerceptron;
         RandomForest; GradientBoosting] ->
  NoDup (file_of' <$> [LogisticRegression; SupportVectorMachine;
                       MultiLayerPerceptron; RandomForest;
                       GradientBoosting]) ->
  import_error = None ->
  read train_features s = Ok X ->
  read train_labels s = Ok y ->
  (forall f : family,
     exists (cv : GridSearchCV) (best : estimator),
       search (classes_of' f).1 (grid_of' f) X (values_ravel y)
       = Ok (cv, best)
       /\ dump_error best (models_dir +:+ file_of' f) = None) ->
  exists s' : state,
    run_each' search fs s = (s', Ok tt)
    /\ (forall f : family,
          exists (cv : GridSearchCV) (best : estimator),
            search (classes_of' f).1 (grid_of' f) X (values_ravel y)
            = Ok (cv, best)
            /\ disk s' !! (models_dir +:+ file_of' f) = Some (dumps best))
    /\ forall path : string,
         (forall f : family, path <> models_dir +:+ file_of' f) ->
         disk s' !! path = disk s !! path.
Proof.
  intros Hfs Hnames Himport HX Hy Hsearch.
  assert (Hall : forall f : family, f ∈ fs).
  { intros f. rewrite Hfs.
    destruct f;
      repeat first [apply list_elem_of_here | apply list_elem_of_further]. }
  assert (Hnames' : NoDup (file_of' <$> fs)) by (rewrite Hfs; exact Hnames).
  destruct (run_each_succeeds search X y fs Himport
              (fun f _ => Hsearch f) s HX Hy) as [s' Hrun].
  exists s'. split; [exact Hrun |].
  destruct (run_each_persists search fs s s' Hnames' Hrun)
    as [Hfiles Hother].
  split.
  - intros f.
    destruct (Hfiles f (Hall f))
      as (X' & y' & cv & best & HX' & Hy' & Hcv & Hfile).
    exists cv, best. split; [| exact Hfile].
    rewrite HX in HX'. rewrite Hy in Hy'.
    injection HX' as <-. injection Hy' as <-. exact Hcv.
  - intros path Hpath. apply Hother. intros f _. apply Hpath.
Qed.

End SessionFacts.

(** ** The comparison of the persisted models *)








Section ComparisonFacts.

Variable estimator : Type.
Variable loads : list Byte.byte -> option estimator.
Variable table : Type.
Variable predict : estimator -> table -> list bool.
Variable val_features : table.
Variable val_labels : list bool.
Variable clock : nat -> Z.
Variable str_evaluation : evaluation -> string.

Local Abbreviation evaluate_model' :=
  (evaluate_model estimator loads table predict val_features val_labels
                  clock str_evaluation).
Local Abbreviation compare_models' :=
  (compare_models estimator loads table predict val_features val_labels
                  clock str_evaluation).

(** The row printed for a model: the counts are those of the rows of
    the validation partition. *)
Local Abbreviation row_of := (fun (t0 : nat) (k : nat)
    (entry : string * string * estimator) =>
  {| model_name := entry.1.1;
     accuracy :=
       (length (filter (fun lp : bool * bool => lp.1 = lp.2)
                       (zip_with pair val_labels
                                 (predict entry.2 val_features))),
        length val_labels);
     precision :=
       (length (filter (fun lp : bool * bool => lp.1 = true /\ lp.2 = true)
                       (zip_with pair val_labels
                                 (predict entry.2 val_features))),
        length (filter (fun p : bool => p = true)
                       (predict entry.2 val_features)));
     recall :=
       (length (filter (fun lp : bool * bool => lp.1 = true /\ lp.2 = true)
                       (zip_with pair val_labels
                                 (predict entry.2 val_features))),
        length (filter (fun l : bool => l = true) val_labels));
     latency := (clock (t0 + 2 * k + 1) - clock (t0 + 2 * k))%Z |}).



End ComparisonFacts.

(** ** The recorded runs *)

(** The modelled search, run on the grid as the notebook writes it and on
    the scores shown in [Random forests], enumerates the configurations in
    the order of the output and selects what the notebook reports. *)
Example Random_forests_search :
  fit (recorded_score rf_grid rf_table) rf_grid = Some rf_recorded.
Proof. vm_compute. reflexivity. Qed.

(** With numpy's [round] and the text of a float, [print_results] writes
    for the recorded result the text that the notebook shows. *)
Example Random_forests_output :
  print_results Np.round Py.str_float rf_recorded []
  = (fun line => line +:+ nl) <$>
      ["Best params: {'max_depth': 4, 'n_estimators': 250}" +:+ nl;
       "0.805 (+/-0.146) for {'max_depth': 2, 'n_estimators': 5}";
       "0.811 (+/-0.082) for {'max_depth': 2, 'n_estimators': 50}";
       "0.802 (+/-0.131) for {'max_depth': 2, 'n_estimators': 250}";
       "0.805 (+/-0.069) for {'max_depth': 4, 'n_estimators': 5}";
       "0.817 (+/-0.083) for {'max_depth': 4, 'n_estimators': 50}";
       "0.826 (+/-0.104) for {'max_depth': 4, 'n_estimators': 250}";
       "0.82 (+/-0.044) for {'max_depth': 8, 'n_estimators': 5}";
       "0.817 (+/-0.058) for {'max_depth': 8, 'n_estimators': 50}";
       "0.818 (+/-0.065) for {'max_depth': 8, 'n_estimators': 250}";
       "0.805 (+/-0.044) for {'max_depth': 16, 'n_estimators': 5}";
       "0.813 (+/-0.016) for {'max_depth': 16, 'n_estimators': 50}";
       "0.809 (+/-0.034) for {'max_depth': 16, 'n_estimators': 250}";
       "0.8 (+/-0.093) for {'max_depth': 32, 'n_estimators': 5}";
       "0.815 (+/-0.046) for {'max_depth': 32, 'n_estimators': 50}";
       "0.811 (+/-0.021) for {'max_depth': 32, 'n_estimators': 250}";
       "0.815 (+/-0.037) for {'max_depth': None, 'n_estimators': 5}";
       "0.815 (+/-0.038) for {'max_depth': None, 'n_estimators': 50}";
       "0.809 (+/-0.025) for {'max_depth': None, 'n_estimators': 250}"].
Proof. vm_compute. reflexivity. Qed.

(** In [Boosting] two lines show the highest mean, 0.841; the header
    names the configuration of the first of them. *)
Example Boosting_output :
  (fun cv =>
     (best_params_ cv,
      (fun i => print_results Np.round Py.str_float cv [] !! i) <$> [0; 8; 26]))
    <$> fit (recorded_score gb_grid gb_table) gb_grid
  = Some
      ([("learning_rate", VFloat (Dec.of_ratio false 1 100));
        ("max_depth", VInt 3); ("n_estimators", VInt 500)],
       (fun line => Some (line +:+ nl)) <$>
         ["Best params: {'learning_rate': 0.01, 'max_depth': 3, 'n_estimators': 500}" +:+ nl;
          "0.841 (+/-0.077) for {'learning_rate': 0.01, 'max_depth': 3, 'n_estimators': 500}";
          "0.841 (+/-0.07) for {'learning_rate': 0.1, 'max_depth': 3, 'n_estimators': 50}"]).
Proof. vm_compute. reflexivity. Qed.

(** When one column is shorter, the lines stop with it: here the column
    of standard deviations has two entries, the others three and four. *)
Example print_results_short_column :
  print_results Np.round Py.str_float
    {| best_params_ := [("max_depth", VInt 4)];
       cv_results_ :=
         {| mean_test_score :=
              [Dec.of_ratio false 805 1000; Dec.of_ratio false 826 1000;
               Dec.of_ratio false 811 1000];
            std_test_score :=
              [Dec.of_ratio false 73 1000; Dec.of_ratio false 52 1000];
            params :=
              [[("max_depth", VInt 2)]; [("max_depth", VInt 4)];
               [("max_depth", VInt 8)]; [("max_depth", VNone)]] |} |} []
  = (fun line => line +:+ nl) <$>
      ["Best params: {'max_depth': 4}" +:+ nl;
       "0.805 (+/-0.146) for {'max_depth': 2}";
       "0.826 (+/-0.104) for {'max_depth': 4}"].
Proof. vm_compute. reflexivity. Qed.

(** The band of a standard deviation 0.073 is the float 0.146. *)
Example band_of_0_073 :
  F64.mul (Dec.of_ratio false 73 1000) (F64.of_int 2)
  = Dec.of_ratio false 146 1000.
Proof. vm_compute. reflexivity. Qed.

(** numpy's [round] on the float nearest to 0.8205, whose product with
    1000 is rounded to 820.5, and on 1e308, whose product with 1000
    overflows; Python's [round] on a [float] gives 0.821 and 1e+308. *)
Example round_of_0_8205 :
  Py.str_float (Np.round (Dec.of_ratio false 8205 10000) 3) = "0.82"
  /\ Py.str_float (Py.round (Dec.of_ratio false 8205 10000) 3) = "0.821"
  /\ Py.str_float (Np.round (F64.of_int (10 ^ 308)) 3) = "inf"
  /\ Py.str_float (Py.round (F64.of_int (10 ^ 308)) 3) = "1e+308".
Proof. repeat split; vm_compute; reflexivity. Qed.

(** The text of a power of two, below which the floats lie closer. *)
Example str_float_of_power_of_two :
  Py.str_float (S754_finite false 4503599627370496 (-76))
  = "5.960464477539063e-08"
  /\ Py.str_float (S754_finite false 1 (-1074)) = "5e-324".
Proof. split; vm_compute; reflexivity. Qed.

(** The text of a configuration whose name holds a quote and a newline. *)
Example str_dict_of_unusual_name :
  str_dict Py.str_float [("it's" +:+ nl, VNone)]
  = "{" +:+ String Repr.dquote "it's\n" +:+ String Repr.dquote ": None}".
Proof. vm_compute. reflexivity. Qed.

(** ** Concrete instances *)

Lemma best_line_argmax_witness :
  exists results : GridSearchCV,
    fit (recorded_score rf_grid rf_table) rf_grid = Some results
    /\ Forall (fun x => F64.is_nan x = false)
              (mean_test_score (cv_results_ results))
    /\ exists (i : nat) (m s : float64),
         zip (mean_test_score (cv_results_ results))
             (std_test_score (cv_results_ results))
             (params (cv_results_ results)) !! i
         = Some (m, s, best_params_ results)
         /\ (forall out : stdout,
               print_results Np.round Py.str_float results out !! length out
               = Some (best_line Py.str_float (best_params_ results) +:+ nl)
               /\ print_results Np.round Py.str_float results out
                    !! (length out + S i)
                  = Some (trial_line Np.round Py.str_float m s
                            (best_params_ results) +:+ nl))
         /\ forall (j : nat) (mj sj : float64) (pj : dict),
              zip (mean_test_score (cv_results_ results))
                  (std_test_score (cv_results_ results))
                  (params (cv_results_ results)) !! j
              = Some (mj, sj, pj) ->
              (forall out : stdout,
                 print_results Np.round Py.str_float results out
                   !! (length out + S j)
                 = Some (trial_line Np.round Py.str_float mj sj pj +:+ nl))
              /\ F64.leb mj m = true.
Proof.
  eexists. split; [vm_compute; reflexivity |].
  split; [vm_compute; repeat constructor |].
  apply (best_line_argmax Np.round Py.str_float
           (recorded_score rf_grid rf_table) rf_grid).
  - vm_compute. reflexivity.
  - vm_compute. repeat constructor.
Defined.

Lemma print_results_line_count_witness :
  length (mean_test_score (cv_results_ rf_recorded)) = 18
  /\ length (std_test_score (cv_results_ rf_recorded)) = 18
  /\ length (params (cv_results_ rf_recorded)) = 18
  /\ newlines (str_dict Py.str_float (best_params_ rf_recorded)) = 0
  /\ Forall (fun t : float64 * float64 * dict =>
               newlines (Py.str_float (Np.round t.1.1 3) +:+ " (+/-"
                         +:+ Py.str_float
                               (Np.round (F64.mul t.1.2 (F64.of_int 2)) 3)
                         +:+ ") for " +:+ str_dict Py.str_float t.2) = 0)
            (zip (mean_test_score (cv_results_ rf_recorded))
                 (std_test_score (cv_results_ rf_recorded))
                 (params (cv_results_ rf_recorded)))
  /\ exists trial_lines : list string,
       splitlines (text (drop (length (@nil string))
                              (print_results Np.round Py.str_float
                                             rf_recorded [])))
       = ("Best params: " +:+ str_dict Py.str_float (best_params_ rf_recorded))
           :: "" :: trial_lines
       /\ trial_lines
          = (fun t : float64 * float64 * dict =>
               Py.str_float (Np.round t.1.1 3) +:+ " (+/-"
               +:+ Py.str_float (Np.round (F64.mul t.1.2 (F64.of_int 2)) 3)
               +:+ ") for " +:+ str_dict Py.str_float t.2)
            <$> zip (mean_test_score (cv_results_ rf_recorded))
                    (std_test_score (cv_results_ rf_recorded))
                    (params (cv_results_ rf_recorded))
       /\ length trial_lines = 18.
Proof.
  assert (Hbest :
    newlines (str_dict Py.str_float (best_params_ rf_recorded)) = 0)
    by (vm_compute; reflexivity).
  assert (Hlines :
    Forall (fun t : float64 * float64 * dict =>
              newlines (Py.str_float (Np.round t.1.1 3) +:+ " (+/-"
                        +:+ Py.str_float
                              (Np.round (F64.mul t.1.2 (F64.of_int 2)) 3)
                        +:+ ") for " +:+ str_dict Py.str_float t.2) = 0)
           (zip (mean_test_score (cv_results_ rf_recorded))
                (std_test_score (cv_results_ rf_recorded))
                (params (cv_results_ rf_recorded))))
    by (apply (bool_decide_unpack _); vm_compute; exact I).
  split; [reflexivity |]. split; [reflexivity |]. split; [reflexivity |].
  split; [exact Hbest |]. split; [exact Hlines |].
  exact (proj1 (print_results_line_count Np.round Py.str_float)
           rf_recorded 18 [] eq_refl eq_refl eq_refl Hbest Hlines).
Defined.

Lemma first_seen_wins_witness :
  exists results : GridSearchCV,
    fit (recorded_score tie_grid tie_table) tie_grid = Some results
    /\ Forall (fun x => F64.is_nan x = false)
              (mean_test_score (cv_results_ results))
    /\ mean_test_score (cv_results_ results) !! 1
       = mean_test_score (cv_results_ results) !! 3
    /\ best_params_ results = [("max_depth", VInt 2); ("n_estimators", VInt 50)]
    /\ exists (i : nat) (m : float64),
         params (cv_results_ results) !! i = Some (best_params_ results)
         /\ mean_test_score (cv_results_ results) !! i = Some m
         /\ (forall (j : nat) (mj : float64),
               mean_test_score (cv_results_ results) !! j = Some mj ->
               F64.leb mj m = true)
         /\ forall (j : nat) (mj : float64),
              mean_test_score (cv_results_ results) !! j = Some mj ->
              F64.leb m mj = true ->
              i <= j.
Proof.
  eexists. split; [vm_compute; reflexivity |].
  split; [vm_compute; repeat constructor |].
  split; [reflexivity |]. split; [reflexivity |].
  apply (first_seen_wins (recorded_score tie_grid tie_table) tie_grid).
  - vm_compute. reflexivity.
  - vm_compute. repeat constructor.
Defined.

(** The five notebooks on the training partition of [Demo.loaded], the
    two of the sources first, with the modelled search on the recorded
    scores. *)
Lemma train_all_persists_witness :
  [RandomForest; GradientBoosting; LogisticRegression;
   SupportVectorMachine; MultiLayerPerceptron]
  ≡ₚ [LogisticRegression; SupportVectorMachine; MultiLayerPerceptron;
      RandomForest; GradientBoosting]
  /\ NoDup (Session.file_of "LR_model.pkl" "SVM_model.pkl" "MLP_model.pkl"
              <$> [LogisticRegression; SupportVectorMachine;
                   MultiLayerPerceptron; RandomForest; GradientBoosting])
  /\ @None Session.exn = None
  /\ Session.read_csv (list Byte.byte) Demo.parse_csv Session.train_features
       Demo.loaded = Session.Ok [Byte.x31; Byte.x2c; Byte.x32]
  /\ Session.read_csv (list Byte.byte) Demo.parse_csv Session.train_labels
       Demo.loaded = Session.Ok [Byte.x30]
  /\ (forall f : family,
        exists (cv : GridSearchCV) (best : Byte.byte),
          Demo.search
            (Session.classes_of Demo.lr_classes Demo.svm_classes
                                Demo.mlp_classes f).1
            (Session.grid_of tie_grid tie_grid tie_grid f)
            [Byte.x31; Byte.x2c; Byte.x32] (Demo.values_ravel [Byte.x30])
          = Session.Ok (cv, best)
          /\ Demo.dump_ok best
               (Session.models_dir
                +:+ Session.file_of "LR_model.pkl" "SVM_model.pkl"
                                    "MLP_model.pkl" f)
             = None)
  /\ exists s' : Session.state,
       Demo.run_each [RandomForest; GradientBoosting; LogisticRegression;
                      SupportVectorMachine; MultiLayerPerceptron]
                     Demo.loaded
       = (s', Session.Ok tt)
       /\ (forall f : family,
             exists (cv : GridSearchCV) (best : Byte.byte),
               Demo.search
                 (Session.classes_of Demo.lr_classes Demo.svm_classes
                                     Demo.mlp_classes f).1
                 (Session.grid_of tie_grid tie_grid tie_grid f)
                 [Byte.x31; Byte.x2c; Byte.x32]
                 (Demo.values_ravel [Byte.x30])
               = Session.Ok (cv, best)
               /\ Session.disk s'
                    !! (Session.models_dir
                        +:+ Session.file_of "LR_model.pkl" "SVM_model.pkl"
                                            "MLP_model.pkl" f)
                  = Some (Stump.dumps best))
       /\ forall path : string,
            (forall f : family,
               path <> Session.models_dir
                       +:+ Session.file_of "LR_model.pkl" "SVM_model.pkl"
                                           "MLP_model.pkl" f) ->
            Session.disk s' !! path = Session.disk Demo.loaded !! path.
Proof.
  assert (Hfs : [RandomForest; GradientBoosting; LogisticRegression;
                 SupportVectorMachine; MultiLayerPerceptron]
                ≡ₚ [LogisticRegression; SupportVectorMachine;
                    MultiLayerPerceptron; RandomForest; GradientBoosting]).
  { symmetry. apply (Permutation_app_comm
                       [LogisticRegression; SupportVectorMachine;
                        MultiLayerPerceptron]
                       [RandomForest; GradientBoosting]). }
  assert (Hnames : NoDup (Session.file_of "LR_model.pkl" "SVM_model.pkl"
                            "MLP_model.pkl"
                            <$> [LogisticRegression; SupportVectorMachine;
                                 MultiLayerPerceptron; RandomForest;
                                 GradientBoosting])).
  { apply (bool_decide_unpack _). vm_compute. exact I. }
  assert (Hsearch :
    forall f : family,
      exists (cv : GridSearchCV) (best : Byte.byte),
        Demo.search
          (Session.classes_of Demo.lr_classes Demo.svm_classes
                              Demo.mlp_classes f).1
          (Session.grid_of tie_grid tie_grid tie_grid f)
          [Byte.x31; Byte.x2c; Byte.x32] (Demo.values_ravel [Byte.x30])
        = Session.Ok (cv, best)
        /\ Demo.dump_ok best
             (Session.models_dir
              +:+ Session.file_of "LR_model.pkl" "SVM_model.pkl"
                                  "MLP_model.pkl" f)
           = None).
  { intros f. destruct f; do 2 eexists;
      (split; [vm_compute; reflexivity | reflexivity]). }
  split; [exact Hfs |]. split; [exact Hnames |]. split; [reflexivity |].
  split; [reflexivity |]. split; [reflexivity |].
  split; [exact Hsearch |].
  exact (train_all_persists (list Byte.byte) (list Byte.byte) Byte.byte
           None Demo.parse_csv Demo.values_ravel Demo.str_default
           Demo.repr_estimator Stump.dumps Demo.dump_ok Np.round
           Py.str_float Demo.lr_classes Demo.svm_classes Demo.mlp_classes
           tie_grid tie_grid tie_grid
           "LR_model.pkl" "SVM_model.pkl" "MLP_model.pkl"
           Demo.search
           [RandomForest; GradientBoosting; LogisticRegression;
            SupportVectorMachine; MultiLayerPerceptron]
           Demo.loaded
           [Byte.x31; Byte.x2c; Byte.x32] [Byte.x30]
           Hfs Hnames eq_refl eq_refl eq_refl Hsearch).
Defined.

(** Without the training partition the first notebook stops at its
    loading cell, and with it the workflow: nothing is written. *)
Example train_all_without_training_partition :
  Demo.train_all Demo.empty
  = ({| Session.printed := ["LogisticRegression()" +:+ nl;
                            "LogisticRegression()" +:+ nl];
        Session.displayed := [];
        Session.disk := ∅ |},
     Session.Raise (Session.FileNotFoundError Session.train_features)).
Proof. vm_compute. reflexivity. Qed.

(** The files after the five notebooks on the training partition. *)
Example train_all_files :
  (fun path => Session.disk (Demo.train_all Demo.loaded).1 !! path)
    <$> ["./models/LR_model.pkl"; "./models/SVM_model.pkl";
         "./models/MLP_model.pkl"; "./models/Random_forest_model.pkl";
         "./models/Boosting_model.pkl"; "./models/Other.pkl"]
  = [Some [Byte.x02]; Some [Byte.x02]; Some [Byte.x02]; Some [Byte.x04];
     Some [Byte.x00]; None].
Proof. vm_compute. reflexivity. Qed.


(** The three rows of the comparison of the persisted stumps: of the
    five rows, the stump with threshold 4 predicts three positive, two of
    them rightly, and is right on three rows. *)
Example compare_models_output :
  out <$> Stump.compare_models Stump.models Stump.persisted
  = Some ((fun line => line +:+ nl) <$>
      ["RF -- Accuracy: 3/5 / Precision: 2/3 / Recall: 2/3 / Latency: 7ms";
       "GB -- Accuracy: 3/5 / Precision: 3/5 / Recall: 3/3 / Latency: 35ms";
       "LR -- Accuracy: 4/5 / Precision: 3/4 / Recall: 3/3 / Latency: 63ms"]).
Proof. vm_compute. reflexivity. Qed.

Lemma print_results_text_lines_witness :
  newlines (str_dict Py.str_float (best_params_ rf_recorded)) = 0
  /\ Forall (fun t : float64 * float64 * dict =>
               newlines (trial_line Np.round Py.str_float t.1.1 t.1.2 t.2) = 0)
            (zip (mean_test_score (cv_results_ rf_recorded))
                 (std_test_score (cv_results_ rf_recorded))
                 (params (cv_results_ rf_recorded)))
  /\ lines_written (print_results Np.round Py.str_float rf_recorded [])
     = length (zip (mean_test_score (cv_results_ rf_recorded))
                   (std_test_score (cv_results_ rf_recorded))
                   (params (cv_results_ rf_recorded))) + 2.
Proof.
  assert (Hbest :
    newlines (str_dict Py.str_float (best_params_ rf_recorded)) = 0)
    by (vm_compute; reflexivity).
  assert (Hlines :
    Forall (fun t : float64 * float64 * dict =>
              newlines (trial_line Np.round Py.str_float t.1.1 t.1.2 t.2) = 0)
           (zip (mean_test_score (cv_results_ rf_recorded))
                (std_test_score (cv_results_ rf_recorded))
                (params (cv_results_ rf_recorded))))
    by (apply (bool_decide_unpack _); vm_compute; exact I).
  split; [exact Hbest |]. split; [exact Hlines |].
  exact (print_results_text_lines Np.round Py.str_float rf_recorded
           Hbest Hlines).
Defined.

(** The standard deviation 0.073 and its band 0.146. *)
Lemma band_exact_witness :
  valid_binary F64.prec F64.emax
    (S754_finite false 5260204364768739 (-56)) = true
  /\ (-56 <= 970)%Z
  /\ exists (m' : positive) (e' : Z),
       F64.mul (S754_finite false 5260204364768739 (-56)) (F64.of_int 2)
       = S754_finite false m' e'
       /\ valid_binary F64.prec F64.emax (S754_finite false m' e') = true
       /\ (Z.pos m' * 2 ^ (e' + 1074)
           = 2 * (5260204364768739 * 2 ^ (-56 + 1074)))%Z.
Proof.
  split; [reflexivity |]. split; [lia |].
  apply (band_exact false 5260204364768739 (-56)); [reflexivity | lia].
Defined.

(** A run of [Random forests] on the training partition when the models
    directory is missing. *)
Lemma run_all_dump_failure_witness :
  @None Session.exn = None
  /\ Session.read_csv (list Byte.byte) Demo.parse_csv Session.train_features
       Demo.loaded = Session.Ok [Byte.x31; Byte.x2c; Byte.x32]
  /\ Session.read_csv (list Byte.byte) Demo.parse_csv Session.train_labels
       Demo.loaded = Session.Ok [Byte.x30]
  /\ Demo.search1 "RandomForestClassifier" rf_grid
       [Byte.x31; Byte.x2c; Byte.x32] (Demo.values_ravel [Byte.x30])
     = Session.Ok (rf_recorded, Byte.x04)
  /\ Demo.dump_no_directory Byte.x04 "./models/Random_forest_model.pkl"
     = Some (Session.FileNotFoundError "./models/Random_forest_model.pkl",
             None)
  /\ exists s' : Session.state,
       Demo.run_no_directory Demo.loaded
       = (s', Session.Raise
                (Session.FileNotFoundError "./models/Random_forest_model.pkl"))
       /\ Session.printed s'
          = Session.printed Demo.loaded
            ++ [Demo.str_default "RandomForestClassifier" +:+ nl;
                Demo.str_default "RandomForestRegressor" +:+ nl]
            ++ print_results Np.round Py.str_float rf_recorded []
       /\ Session.displayed s'
          = Session.displayed Demo.loaded ++ [Demo.repr_estimator Byte.x04]
       /\ (forall other : string,
             other <> "./models/Random_forest_model.pkl" ->
             Session.disk s' !! other = Session.disk Demo.loaded !! other)
       /\ Session.disk s' !! "./models/Random_forest_model.pkl"
          = Session.disk Demo.loaded !! "./models/Random_forest_model.pkl".
Proof.
  split; [reflexivity |]. split; [reflexivity |]. split; [reflexivity |].
  split; [reflexivity |]. split; [reflexivity |].
  exact (run_all_dump_failure (list Byte.byte) (list Byte.byte) Byte.byte
           None Demo.parse_csv Demo.values_ravel Demo.str_default
           Demo.repr_estimator Stump.dumps Demo.dump_no_directory Np.round
           Py.str_float Demo.search1 "RandomForestClassifier"
           "RandomForestRegressor" rf_grid
           "./models/Random_forest_model.pkl" Demo.loaded
           [Byte.x31; Byte.x2c; Byte.x32] [Byte.x30] rf_recorded Byte.x04
           (Session.FileNotFoundError "./models/Random_forest_model.pkl")
           None eq_refl eq_refl eq_refl eq_refl eq_refl).
Defined.

(** A run of [Random forests] without the training partition. *)
Lemma run_all_missing_file_witness :
  @None Session.exn = None
  /\ Session.disk Demo.empty !! Session.train_features = None
  /\ Demo.run Demo.search1 Demo.empty
     = ({| Session.printed :=
             Session.printed Demo.empty
             ++ [Demo.str_default "RandomForestClassifier" +:+ nl;
                 Demo.str_default "RandomForestRegressor" +:+ nl];
           Session.displayed := Session.displayed Demo.empty;
           Session.disk := Session.disk Demo.empty |},
        Session.Raise (Session.FileNotFoundError Session.train_features)).
Proof.
  split; [reflexivity |]. split; [reflexivity |].
  exact (proj1 (run_all_missing_file (list Byte.byte) (list Byte.byte)
                  Byte.byte None Demo.parse_csv Demo.values_ravel
                  Demo.str_default Demo.repr_estimator Stump.dumps
                  Demo.dump_ok Np.round Py.str_float Demo.search1
                  "RandomForestClassifier" "RandomForestRegressor" rf_grid
                  "./models/Random_forest_model.pkl" Demo.empty eq_refl)
               eq_refl).
Defined.

Lemma rerun_replaces_witness :
  let s1 := (Demo.run Demo.search1 Demo.loaded).1 in
  let s2 := (Demo.run Demo.search2 s1).1 in
  "./models/Random_forest_model.pkl" <> Session.train_features
  /\ "./models/Random_forest_model.pkl" <> Session.train_labels
  /\ Demo.run Demo.search1 Demo.loaded = (s1, Session.Ok tt)
  /\ Demo.run Demo.search2 s1 = (s2, Session.Ok tt)
  /\ exists s2' : Session.state,
       Demo.run Demo.search2 Demo.loaded = (s2', Session.Ok tt)
       /\ Session.disk s2' = Session.disk s2.
Proof.
  intros s1 s2.
  assert (Hf : "./models/Random_forest_model.pkl" <> Session.train_features)
    by discriminate.
  assert (Hl : "./models/Random_forest_model.pkl" <> Session.train_labels)
    by discriminate.
  assert (Hrun1 : Demo.run Demo.search1 Demo.loaded = (s1, Session.Ok tt))
    by (vm_compute; reflexivity).
  assert (Hrun2 : Demo.run Demo.search2 s1 = (s2, Session.Ok tt))
    by (vm_compute; reflexivity).
  split; [exact Hf |]. split; [exact Hl |].
  split; [exact Hrun1 |]. split; [exact Hrun2 |].
  exact (proj2 (proj2 (rerun_replaces _ _ _ _ _ _ _ _ _ _ _ _ _ _ _ _ _ _ _
                         _ _ Hf Hl Hrun1 Hrun2))).
Defined.
